(** * generate.py: from two CSV exports to per-question grade files

    A shallow embedding of [src/generate.py] and the properties of its
    grade extraction.

    Conventions of the embedding.
    - A Python [str] is a [string]; its characters are the code points below
      256.  In that range the white space removed by [str.strip()] and the
      decimal digits accepted by [int()] and by [\d] are the ones listed in
      [is_space] and [is_digit].
    - A Python [int] is a [Z].
    - A [dict] is an association list in insertion order ([Dict]), because
      the program iterates over dictionaries ([.values()], [.items()]).
    - An uncaught exception is a value of [exn]; code that can raise returns
      an [exc].  [EnvError] stands for whatever exception a call into the
      interpreter's library raises when it fails ([input], [os.makedirs],
      opening, decoding and reading a file, writing one): an end of file,
      an error of the operating system, of the decoder, of the CSV reader
      and the like.  The program catches none of them.
    - The part of [main] that prints and writes files runs in the
      state-and-exception monad [io]; [print] itself is taken to succeed. *)

From Stdlib Require Import ZArith List String Ascii Bool Lia.
From Stdlib Require Import DecimalString DecimalZ Sorted.
Import ListNotations.

Open Scope string_scope.
Open Scope list_scope.
Open Scope Z_scope.

(** ** Exceptions *)

Inductive exn : Type :=
| KeyError
| AttributeError
| TypeError
| ValueError
| EnvError
| SystemExit (code : Z).

Inductive exc (A : Type) : Type :=
| Ok (a : A)
| Raise (e : exn).

Arguments Ok {A} a.
Arguments Raise {A} e.

Definition rbind {A B : Type} (m : exc A) (k : A -> exc B) : exc B :=
  match m with
  | Ok a => k a
  | Raise e => Raise e
  end.

Notation "'do' x <- m ; k" := (rbind m (fun x => k))
  (at level 10, x name, m at level 100, k at level 200).

(** ** Dictionaries in insertion order *)

Class Key (K : Type) : Type := {
  keqb : K -> K -> bool;
  keqb_eq : forall a b, keqb a b = true <-> a = b
}.

#[export] Instance Key_string : Key string :=
  {| keqb := String.eqb; keqb_eq := String.eqb_eq |}.

#[export] Instance Key_Z : Key Z :=
  {| keqb := Z.eqb; keqb_eq := Z.eqb_eq |}.

Module Dict.
Section Ops.
Context {K V : Type} `{Key K}.

Definition t : Type := list (K * V).

(** [d.get(k)]: [None] when the key is absent. *)
Fixpoint get (k : K) (d : t) : option V :=
  match d with
  | [] => None
  | (k', v) :: d' => if keqb k k' then Some v else get k d'
  end.

(** [k in d] *)
Definition mem (k : K) (d : t) : bool :=
  match get k d with Some _ => true | None => false end.

(** [d[k] = v]: an existing key keeps its position, a new key goes last. *)
Fixpoint set (k : K) (v : V) (d : t) : t :=
  match d with
  | [] => [(k, v)]
  | (k', v') :: d' =>
      if keqb k k' then (k', v) :: d' else (k', v') :: set k v d'
  end.

Definition keys (d : t) : list K := map fst d.
Definition values (d : t) : list V := map snd d.
End Ops.
Arguments t : clear implicits.
End Dict.

(** [d[k]] as an expression: [KeyError] when the key is absent. *)
Definition getitem {K V : Type} `{Key K} (d : Dict.t K V) (k : K) : exc V :=
  match Dict.get k d with
  | Some v => Ok v
  | None => Raise KeyError
  end.

(** ** Strings: [str.strip()], [int()], and the header pattern *)

Definition code (c : ascii) : N := N_of_ascii c.

(** White space of [str.strip()] without argument: TAB, LF, VT, FF, CR,
    FS, GS, RS, US, SPACE, NEL (U+0085) and NBSP (U+00A0). *)
Definition is_space (c : ascii) : bool :=
  let n := code c in
  ((9 <=? n) && (n <=? 13) || (28 <=? n) && (n <=? 32)
   || (n =? 133) || (n =? 160))%N.

(** Decimal digits: [0-9]. *)
Definition is_digit (c : ascii) : bool :=
  let n := code c in ((48 <=? n) && (n <=? 57))%N.

Definition digit_value (c : ascii) : Z := Z.of_N (code c) - 48.

Fixpoint lstrip (s : string) : string :=
  match s with
  | String c s' => if is_space c then lstrip s' else s
  | EmptyString => EmptyString
  end.

Fixpoint rstrip (s : string) : string :=
  match s with
  | String c s' =>
      match rstrip s' with
      | EmptyString => if is_space c then EmptyString else String c EmptyString
      | r => String c r
      end
  | EmptyString => EmptyString
  end.

Definition strip (s : string) : string := rstrip (lstrip s).

(** The digits of an [int()] literal: digits with single underscores
    between them.  [prev_us] says that the previous character was an
    underscore; the literal may not end in one. *)
Fixpoint int_digits (prev_us : bool) (acc : Z) (s : string) : option Z :=
  match s with
  | EmptyString => if prev_us then None else Some acc
  | String c s' =>
      if is_digit c then int_digits false (acc * 10 + digit_value c) s'
      else if Ascii.eqb c "_" then
        if prev_us then None else int_digits true acc s'
      else None
  end.

(** The limit on the number of digits of a literal that [int] converts:
    [sys.int_info.default_max_str_digits] of CPython 3.11 and later. *)
Definition int_max_str_digits : N := 4300.

(** The number of digits of a literal; underscores do not count. *)
Fixpoint count_digits (s : string) : N :=
  match s with
  | EmptyString => 0%N
  | String c s' =>
      if is_digit c then N.succ (count_digits s') else count_digits s'
  end.

Definition int_unsigned (s : string) : option Z :=
  match s with
  | EmptyString => None
  | String c _ =>
      if Ascii.eqb c "_" then None
      else if (count_digits s <=? int_max_str_digits)%N
           then int_digits false 0 s
           else None                     (* exceeds the limit: ValueError *)
  end.

(** [int(s)] in base 10, for [s] without leading or trailing white space
    (every call in the program passes such a string: the result of
    [strip()] or a group of digits): an optional sign, then the digits.
    [None] stands for [ValueError], which is also what a literal of more
    than [int_max_str_digits] digits gives. *)
Definition int (s : string) : option Z :=
  match s with
  | String "+" s' => int_unsigned s'
  | String "-" s' => option_map Z.opp (int_unsigned s')
  | _ => int_unsigned s
  end.

(** The literal [p] at the start of [s]: the rest of [s] after it. *)
Fixpoint literal (p s : string) : option string :=
  match p with
  | EmptyString => Some s
  | String a p' =>
      match s with
      | String b s' => if Ascii.eqb a b then literal p' s' else None
      | EmptyString => None
      end
  end.

(** The longest run of digits at the start of [s], and the rest. *)
Fixpoint digits (s : string) : string * string :=
  match s with
  | String c s' =>
      if is_digit c then let (d, r) := digits s' in (String c d, r)
      else (EmptyString, s)
  | EmptyString => (EmptyString, EmptyString)
  end.

(** [\d+]: at least one digit.  What follows a run of digits in the pattern
    is never a digit, so a match takes the longest run. *)
Definition digits1 (s : string) : option (string * string) :=
  let (d, r) := digits s in
  match d with
  | EmptyString => None
  | _ => Some (d, r)
  end.

(** [$] without MULTILINE: the end of the string, or just before a line feed
    that ends the string. *)
Definition at_end (s : string) : bool :=
  match s with
  | EmptyString => true
  | String c EmptyString => Ascii.eqb c "010"
  | _ => false
  end.

(** [pattern.match(h)] for
    [^Question (\d+)(?:\.(\d+))? Response$]: group 1 of the match. *)
Definition pattern_match (h : string) : option string :=
  match literal "Question " h with
  | None => None
  | Some r1 =>
      match digits1 r1 with
      | None => None
      | Some (g1, r2) =>
          let after_sub :=
            match r2 with
            | String "." r3 =>
                match digits1 r3 with
                | Some (_, r4) => Some r4
                | None => None
                end
            | _ => Some r2
            end in
          match after_sub with
          | None => None
          | Some r5 =>
              match literal " Response" r5 with
              | Some r6 => if at_end r6 then Some g1 else None
              | None => None
              end
          end
      end
  end.

(** ** parse_questions *)

(** [questions[main_q].append(h)] on a [defaultdict(list)]. *)
Definition append_to (main_q : Z) (h : string)
    (questions : Dict.t Z (list string)) : Dict.t Z (list string) :=
  match Dict.get main_q questions with
  | Some l => Dict.set main_q (l ++ [h]) questions
  | None => Dict.set main_q ([] ++ [h]) questions
  end.

Fixpoint parse_questions_loop (headers : list string)
    (questions : Dict.t Z (list string)) : exc (Dict.t Z (list string)) :=
  match headers with
  | [] => Ok questions
  | h :: rest =>
      match pattern_match h with
      | Some g1 =>
          match int g1 with
          | Some main_q => parse_questions_loop rest (append_to main_q h questions)
          | None => Raise ValueError
          end
      | None => parse_questions_loop rest questions
      end
  end.

Definition parse_questions (headers : list string)
    : exc (Dict.t Z (list string)) :=
  parse_questions_loop headers [].

(** ** compute_grades *)

(** A cell of a [csv.DictReader] row: a string, or [None] where the line
    had fewer fields than the header. *)
Definition cell : Type := option string.
Definition row : Type := Dict.t string cell.

(** [c or ""] *)
Definition or_empty (c : cell) : string :=
  match c with
  | Some s => s
  | None => ""
  end.

Fixpoint compute_grades_loop (r : row) (response_columns : list string)
    (result : list Z) (has_any : bool) : exc (list Z * bool) :=
  match response_columns with
  | [] => Ok (result, has_any)
  | col :: rest =>
      do c <- getitem r col;
      let val := strip (or_empty c) in
      if String.eqb val "" then
        compute_grades_loop r rest (result ++ [0]) has_any
      else
        match int val with
        | Some v =>
            if (0 <=? v) && (v <=? 4) then
              compute_grades_loop r rest (result ++ [v]) true
            else
              compute_grades_loop r rest (result ++ [0]) has_any
        | None =>                                  (* except ValueError *)
            compute_grades_loop r rest (result ++ [0]) has_any
        end
  end.

(** [None] is the value returned when [has_any] stayed false. *)
Definition compute_grades (r : row) (response_columns : list string)
    : exc (option (list Z)) :=
  do out <- compute_grades_loop r response_columns [] false;
  let (result, has_any) := out in
  Ok (if has_any then Some result else None).

(** ** The extractor of main *)

(** Truth value of a [str]: it is not empty. *)
Definition truthy (s : string) : bool := negb (String.eqb s "").

(** Lines 143-150: the SID -> Submission ID dictionary of the scores file. *)
Fixpoint build_sid_to_submission (rows : list row)
    (sid_to_submission : Dict.t string string) : exc (Dict.t string string) :=
  match rows with
  | [] => Ok sid_to_submission
  | r :: rest =>
      do c1 <- getitem r "SID";
      let sid := strip (or_empty c1) in
      do c2 <- getitem r "Submission ID";
      let sub_id := strip (or_empty c2) in
      if truthy sid && truthy sub_id
      then build_sid_to_submission rest (Dict.set sid sub_id sid_to_submission)
      else build_sid_to_submission rest sid_to_submission
  end.

(** Line 169:
    [{sub_id: [0] * num_parts for sub_id in sid_to_submission.values()}] *)
Definition default_grades (sid_to_submission : Dict.t string string)
    (num_parts : nat) : Dict.t string (list Z) :=
  fold_left (fun grades sub_id => Dict.set sub_id (repeat 0 num_parts) grades)
            (Dict.values sid_to_submission) [].

(** Lines 172-178: the body of the loop over the metadata rows. *)
Definition grade_row (sid_to_submission : Dict.t string string)
    (response_cols : list string) (grades : Dict.t string (list Z)) (r : row)
    : exc (Dict.t string (list Z)) :=
  do c <- getitem r "Student ID";
  match c with
  | None => Raise AttributeError
  | Some s =>
      let sid := strip s in
      match Dict.get sid sid_to_submission with
      | None => Ok grades
      | Some submission_id =>
          do part_grades <- compute_grades r response_cols;
          match part_grades with
          | Some v => Ok (Dict.set submission_id v grades)
          | None => Ok grades
          end
      end
  end.

Fixpoint grade_rows (sid_to_submission : Dict.t string string)
    (response_cols : list string) (rows : list row)
    (grades : Dict.t string (list Z)) : exc (Dict.t string (list Z)) :=
  match rows with
  | [] => Ok grades
  | r :: rest =>
      do grades' <- grade_row sid_to_submission response_cols grades r;
      grade_rows sid_to_submission response_cols rest grades'
  end.

(** Lines 166-178: the grade mapping of one question. *)
Definition question_grades (sid_to_submission : Dict.t string string)
    (response_cols : list string) (rows : list row)
    : exc (Dict.t string (list Z)) :=
  let num_parts := List.length response_cols in
  grade_rows sid_to_submission response_cols rows
             (default_grades sid_to_submission num_parts).

(** Line 180: [any(any(g > 0 for g in arr) for arr in grades.values())] *)
Definition any_positive (grades : Dict.t string (list Z)) : bool :=
  existsb (fun arr => existsb (fun g => 0 <? g) arr) (Dict.values grades).

(** ** Input, output and main *)

(** What is printed: one constructor per [print] of the program, with the
    values its text is formatted from; [Prompt] is the prompt of [input]. *)
Inductive line : Type :=
| Usage (prog : string)
| Prompt
| Found (count : nat) (qs : list Z)
| Skipped (q_num : Z)
| Wrote (q_num : Z) (entries : nat) (num_parts : nat).

(** A written file [<folder>/q<q_num>.js]: its text is the literal of
    [js_grades], one line per entry in order, then the fixed template
    instantiated with [js_num_parts]. *)
Record js_file : Type := {
  js_folder : string;
  js_q_num : Z;
  js_grades : Dict.t string (list Z);
  js_num_parts : nat
}.

Record world : Type := {
  stdout : list line;
  disk : list js_file
}.

Record csv_file : Type := {
  fieldnames : option (list string);   (* [None] for an empty file *)
  csv_rows : list row                  (* [list(csv.DictReader(f))] *)
}.

(** What the program finds outside itself.  Where a field says that a call
    fails, the call raises an exception of the library ([EnvError]).
    - [stdin_line]: the reply to [input]; [None] when [input] raises (end of
      file, undecodable input).
    - [makedirs_ok]: [os.makedirs(., exist_ok=True)] succeeds.
    - [open_read]: [Some f] when the file opens, decodes and parses as CSV,
      [f] being what [csv.DictReader] gives for it; [None] when opening or
      reading it raises.  The program prints nothing between opening a
      file and the end of its reading, so where in the file the reading
      fails makes no difference to the output and the exit status.
    - [open_write_ok]: [<folder>/q<n>.js] opens for writing and is written. *)
Record env : Type := {
  stdin_line : option string;
  makedirs_ok : string -> bool;
  open_read : string -> option csv_file;
  open_write_ok : string -> Z -> bool
}.

Definition io (A : Type) : Type := world -> exc A * world.

Definition iret {A : Type} (a : A) : io A := fun w => (Ok a, w).

Definition ibind {A B : Type} (m : io A) (k : A -> io B) : io B :=
  fun w =>
    match m w with
    | (Ok a, w') => k a w'
    | (Raise e, w') => (Raise e, w')
    end.

Definition raise {A : Type} (e : exn) : io A := fun w => (Raise e, w).

Definition lift {A : Type} (m : exc A) : io A := fun w => (m, w).

Definition print (l : line) : io unit :=
  fun w => (Ok tt, {| stdout := stdout w ++ [l]; disk := disk w |}).

Definition write_file (f : js_file) : io unit :=
  fun w => (Ok tt, {| stdout := stdout w; disk := disk w ++ [f] |}).

Notation "'io!' x <- m ; k" := (ibind m (fun x => k))
  (at level 10, x name, m at level 100, k at level 200).
Notation "m ;; k" := (ibind m (fun _ => k))
  (at level 100, k at level 200, right associativity).

(** [sorted] on keys of type [int]. *)
Fixpoint insert (x : Z) (l : list Z) : list Z :=
  match l with
  | [] => [x]
  | y :: l' => if x <=? y then x :: l else y :: insert x l'
  end.

Definition sorted (l : list Z) : list Z := fold_right insert [] l.

(** Lines 165-194: the body of the loop over the questions. *)
Definition emit_question (e : env) (folder_name : string)
    (questions : Dict.t Z (list string))
    (sid_to_submission : Dict.t string string) (rows : list row)
    (q_num : Z) : io unit :=
  io! response_cols <- lift (getitem questions q_num);
  let num_parts := List.length response_cols in
  io! grades <- lift (question_grades sid_to_submission response_cols rows);
  if negb (any_positive grades) then print (Skipped q_num)
  else
    if open_write_ok e folder_name q_num then
      write_file {| js_folder := folder_name; js_q_num := q_num;
                    js_grades := grades; js_num_parts := num_parts |} ;;
      print (Wrote q_num (List.length grades) num_parts)
    else raise EnvError.

Fixpoint for_each {A : Type} (body : A -> io unit) (l : list A) : io unit :=
  match l with
  | [] => iret tt
  | x :: rest => body x ;; for_each body rest
  end.

(** [main], with [sys.argv = prog :: args]. *)
Definition main (e : env) (prog : string) (args : list string) : io unit :=
  let argv := prog :: args in
  if negb (Nat.eqb (List.length argv) 3) then
    print (Usage prog) ;; raise (SystemExit 1)
  else
    let scores_csv := nth 1 argv "" in
    let metadata_csv := nth 2 argv "" in
    print Prompt ;;
    io! reply <- match stdin_line e with
                 | Some s => iret s
                 | None => raise EnvError
                 end;
    let folder_name := strip reply in
    (if makedirs_ok e folder_name then iret tt else raise EnvError) ;;
    io! scores <- match open_read e scores_csv with
                  | Some f => iret f
                  | None => raise EnvError
                  end;
    io! sid_to_submission <- lift (build_sid_to_submission (csv_rows scores) []);
    io! metadata <- match open_read e metadata_csv with
                    | Some f => iret f
                    | None => raise EnvError
                    end;
    let rows := csv_rows metadata in
    io! headers <- match fieldnames metadata with
                   | Some h => iret h
                   | None => raise TypeError   (* [for h in None] *)
                   end;
    io! questions <- lift (parse_questions headers);
    print (Found (List.length questions) (sorted (Dict.keys questions))) ;;
    for_each (emit_question e folder_name questions sid_to_submission rows)
             (sorted (Dict.keys questions)).

(** The exit status of the interpreter: 0 when [main] returns, the code of
    [sys.exit], and 1 after any other uncaught exception. *)
Definition exit_status {A : Type} (r : exc A) : Z :=
  match r with
  | Ok _ => 0
  | Raise (SystemExit c) => c
  | Raise _ => 1
  end.

Definition empty_world : world := {| stdout := []; disk := [] |}.

Definition run (e : env) (prog : string) (args : list string) : Z * world :=
  let (r, w) := main e prog args empty_world in (exit_status r, w).

(** ** Vocabulary of the statements *)

Fixpoint all_chars (p : ascii -> bool) (s : string) : bool :=
  match s with
  | EmptyString => true
  | String c s' => p c && all_chars p s'
  end.

(** The question number of a header: the integer of group 1 when the
    header matches the pattern. *)
Definition header_question (h : string) : option Z :=
  match pattern_match h with
  | Some g1 => int g1
  | None => None
  end.

Definition has_question (N : Z) (h : string) : bool :=
  match header_question h with
  | Some n => n =? N
  | None => false
  end.

(** The headers of question [N], in their order of appearance. *)
Definition matching (N : Z) (headers : list string) : list string :=
  filter (has_question N) headers.

Definition or_nil (o : option (list string)) : list string :=
  match o with
  | Some l => l
  | None => []
  end.

(** The stripped value of a cell (line 115). *)
Definition value_of (c : cell) : string := strip (or_empty c).

(** A cell holds a valid grade: its value parses as an integer in [0,4]. *)
Definition valid_cell (c : cell) : Prop :=
  exists v, int (value_of c) = Some v /\ 0 <= v <= 4.

(** A cell is blank, does not parse, or parses to a value outside [0,4]. *)
Definition blank_or_invalid (c : cell) : Prop :=
  value_of c = ""
  \/ int (value_of c) = None
  \/ exists v, int (value_of c) = Some v /\ (v < 0 \/ 4 < v).

(** The row has a cell, possibly [None], in every one of the columns. *)
Definition has_columns (r : row) (cols : list string) : Prop :=
  forall col, In col cols -> exists c, Dict.get col r = Some c.

(** The cell of a row in a column it has. *)
Definition cell_of (r : row) (col : string) : cell :=
  match Dict.get col r with
  | Some c => c
  | None => None
  end.

(** What one pass of the loop of [compute_grades] does with the stripped
    value [val]: the grade it appends, and whether it sets [has_any]. *)
Definition grade_of (val : string) : Z * bool :=
  if String.eqb val "" then (0, false)
  else
    match int val with
    | Some v => if (0 <=? v) && (v <=? 4) then (v, true) else (0, false)
    | None => (0, false)
    end.

(** The grade and the flag of the cell in column [col]. *)
Definition grade_at (r : row) (col : string) : Z :=
  fst (grade_of (value_of (cell_of r col))).

Definition flag_at (r : row) (col : string) : bool :=
  snd (grade_of (value_of (cell_of r col))).

(** The rows that leave the entry of [sub] alone: a row of a student of
    this submission returns the sentinel. *)
Definition leaves_alone (l : Dict.t string string) (cols : list string)
    (sub : string) (r : row) : Prop :=
  forall s, Dict.get "Student ID" r = Some (Some s) ->
            Dict.get (strip s) l = Some sub ->
            compute_grades r cols = Ok None.

(** Some vector of the mapping has an entry that is not zero. *)
Definition has_nonzero (grades : Dict.t string (list Z)) : Prop :=
  exists sub arr g, Dict.get sub grades = Some arr /\ In g arr /\ g <> 0.

(** A file of question [q_num] is on the disk. *)
Definition file_written (w : world) (q_num : Z) : Prop :=
  exists f, In f (disk w) /\ js_q_num f = q_num.

(** Every grade of a vector is between 0 and 4. *)
Definition in_range (v : list Z) : Prop := Forall (fun g => 0 <= g <= 4) v.



(** ** Example data *)

(** The two examples of the specification: one student, question 1 with two
    parts. *)
Definition ex_scores : csv_file :=
  {| fieldnames := Some ["SID"; "Submission ID"];
     csv_rows := [[("SID", Some "s1"); ("Submission ID", Some "sub1")]] |}.

Definition ex_headers : list string :=
  ["Student ID"; "Question 1.1 Response"; "Question 1.2 Response"].

Definition ex_metadata (a b : string) : csv_file :=
  {| fieldnames := Some ex_headers;
     csv_rows := [[("Student ID", Some "s1");
                   ("Question 1.1 Response", Some a);
                   ("Question 1.2 Response", Some b)]] |}.

Definition ex_env (a b : string) : env :=
  {| stdin_line := Some "out";
     makedirs_ok := fun _ => true;
     open_read := fun p =>
       if String.eqb p "scores.csv" then Some ex_scores
       else if String.eqb p "meta.csv" then Some (ex_metadata a b)
       else None;
     open_write_ok := fun _ _ => true |}.

(** A row whose only response cell is the string "0", and a row whose
    response cell is blank, for student [s1] with submission [sub1]. *)
Definition q1_cols : list string := ["Question 1 Response"].

Definition q1_row (a : string) : row :=
  [("Student ID", Some "s1"); ("Question 1 Response", Some a)].

Definition s1_lookup : Dict.t string string := [("s1", "sub1")].



(** A row of three parts: a grade, a [None] cell, a grade between white
    space, and the columns of its question. *)
Definition q2_cols : list string :=
  ["Question 2.1 Response"; "Question 2.2 Response"; "Question 2.3 Response"].

Definition q2_row : row :=
  [("Student ID", Some "s1");
   ("Question 2.1 Response", Some "7");
   ("Question 2.2 Response", None);
   ("Question 2.3 Response", Some " 3 ")].

(** The world after the first example of the specification. *)
Definition ex_world : world :=
  {| stdout := [Prompt; Found 1 [1]; Wrote 1 1 2];
     disk := [{| js_folder := "out"; js_q_num := 1;
                 js_grades := [("sub1", [3; 0])];
                 js_num_parts := 2 |}] |}.

(** A scores file in which the SID [s1] comes twice and [s1] and [s2] end
    with the same submission, and metadata rows of both students. *)
Definition shared_scores : list row :=
  [[("SID", Some "s1"); ("Submission ID", Some "old")];
   [("SID", Some "s2"); ("Submission ID", Some "sub1")];
   [("SID", Some " s1"); ("Submission ID", Some "sub1 ")]].

Definition shared_lookup : Dict.t string string :=
  [("s1", "sub1"); ("s2", "sub1")].

Definition row_of (sid a : string) : row :=
  [("Student ID", Some sid); ("Question 1 Response", Some a)].

Definition shared_rows : list row :=
  [row_of "s1" "3"; row_of "s2" "2"; row_of "s1" ""].

(** ** More of the program, and vocabulary for its properties *)

(** [str(n)] for an [int]. *)
Definition str (n : Z) : string := NilEmpty.string_of_int (Z.to_int n).

(** Line 184: the base name of the file of a question, [f"q{q_num}.js"]. *)
Definition js_name (q_num : Z) : string := ("q" ++ str q_num ++ ".js")%string.

(** A non-empty string of decimal digits: what [\d+] matches. *)
Definition digit_string (s : string) : Prop :=
  s <> "" /\ all_chars is_digit s = true.

(** The strings that [^Question (\d+)(?:\.(\d+))? Response$] matches, with
    group 1 equal to [g1]: the optional part is absent or a dot and digits,
    and a single line feed may end the string. *)
Definition header_shape (h g1 : string) : Prop :=
  digit_string g1
  /\ exists sub nl,
       (sub = "" \/ exists g2, digit_string g2 /\ sub = String "." g2)
       /\ (nl = "" \/ nl = String "010" "")
       /\ h = ("Question " ++ g1 ++ sub ++ " Response" ++ nl)%string.

(** The rest [r] does not begin with a digit. *)
Definition no_digit_first (r : string) : Prop :=
  match r with
  | String c _ => is_digit c = false
  | EmptyString => True
  end.


(** A metadata row that the loop of [main] passes over: its student ID is
    not in the lookup. *)
Definition skipped (lookup : Dict.t string string) (r : row) : bool :=
  match Dict.get "Student ID" r with
  | Some (Some s) => negb (Dict.mem (strip s) lookup)
  | _ => false
  end.

(** The distinct elements of a list, each at its first occurrence. *)
Fixpoint uniq (l : list string) : list string :=
  match l with
  | [] => []
  | x :: l' => x :: filter (fun y => negb (String.eqb y x)) (uniq l')
  end.

(** [x] is not in the list [K]. *)
Definition notin (K : list string) (x : string) : bool :=
  negb (existsb (String.eqb x) K).



(** The file [f] is what [emit_question] writes for its question. *)
Definition written_by (folder_name : string)
    (questions : Dict.t Z (list string)) (lookup : Dict.t string string)
    (rows : list row) (f : js_file) : Prop :=
  exists cols,
    Dict.get (js_q_num f) questions = Some cols
    /\ question_grades lookup cols rows = Ok (js_grades f)
    /\ any_positive (js_grades f) = true
    /\ js_num_parts f = List.length cols
    /\ js_folder f = folder_name.

(** The line that [emit_question] prints for question [q]. *)
Definition line_of (questions : Dict.t Z (list string))
    (lookup : Dict.t string string) (rows : list row) (q : Z) (l : line)
    : Prop :=
  exists cols g,
    Dict.get q questions = Some cols
    /\ question_grades lookup cols rows = Ok g
    /\ (l = Skipped q /\ any_positive g = false
        \/ l = Wrote q (List.length g) (List.length cols)
           /\ any_positive g = true).

(** ** More example data *)


(** Two students with a submission each; only [s1] has a metadata row. *)
Definition two_lookup : Dict.t string string :=
  [("s1", "sub1"); ("s9", "sub9")].

(** A metadata file whose header names question 2 before question 1, and
    an environment in which no file can be opened for writing. *)
Definition two_q_metadata : csv_file :=
  {| fieldnames := Some ["Student ID"; "Question 2 Response";
                         "Question 1.1 Response"; "Question 01.2 Response"];
     csv_rows := [[("Student ID", Some "s1");
                   ("Question 2 Response", Some "4");
                   ("Question 1.1 Response", Some " 1");
                   ("Question 01.2 Response", Some "x")]] |}.

Definition two_q_env : env :=
  {| stdin_line := Some " out ";
     makedirs_ok := fun _ => true;
     open_read := fun p =>
       if String.eqb p "scores.csv" then Some ex_scores
       else Some two_q_metadata;
     open_write_ok := fun _ _ => true |}.

Definition read_only_env : env :=
  {| stdin_line := Some "out";
     makedirs_ok := fun _ => true;
     open_read := fun _ => None;
     open_write_ok := fun _ _ => false |}.

(** A row of the scores file that has both columns, one of them blank. *)
Definition blank_scores_row (r : row) : bool :=
  match Dict.get "SID" r, Dict.get "Submission ID" r with
  | Some c1, Some c2 =>
      negb (truthy (strip (or_empty c1)) && truthy (strip (or_empty c2)))
  | _, _ => false
  end.

(** ** Question numbers and the limit of [int] *)

(** The literal [g] has no more digits than [int] converts. *)
Definition within_limit (g : string) : Prop :=
  (count_digits g <= int_max_str_digits)%N.

(** The number that a string of decimal digits denotes, as the Standard
    Library reads decimal numerals; [None] when a character is not a digit. *)
Definition decimal_value (g : string) : option Z :=
  option_map (fun d => Z.of_nat (Nat.of_uint d)) (NilEmpty.uint_of_string g).

(** The header [h] matches the pattern with leading integer [N]. *)
Definition header_of_question (N : Z) (h : string) : Prop :=
  exists g1, header_shape h g1 /\ decimal_value g1 = Some N.

(** A header whose question number has 4301 digits. *)
Definition long_digits : string := N.iter 4301 (String "1") "".

Definition long_header : string :=
  ("Question " ++ long_digits ++ " Response")%string.

(** Two arguments, and a metadata file in which no row has a student ID
    and the header names no question. *)
Definition no_question_env : env :=
  {| stdin_line := Some "out";
     makedirs_ok := fun _ => true;
     open_read := fun p =>
       if String.eqb p "scores.csv" then Some ex_scores
       else Some {| fieldnames := Some ["Name"];
                    csv_rows := [[("Name", Some "Ada")]] |};
     open_write_ok := fun _ _ => true |}.
(** * Properties *)

(** ** Dictionaries *)

Section DictFacts.
Context {K V : Type} `{Key K}.
Implicit Types (k : K) (v : V) (d : Dict.t K V).

Lemma keqb_refl k : keqb k k = true.
Proof. now apply keqb_eq. Qed.

Lemma keqb_neq k k' : k <> k' -> keqb k k' = false.
Proof.
  intros Hne. destruct (keqb k k') eqn:E; [|reflexivity].
  apply keqb_eq in E. contradiction.
Qed.

Lemma keqb_false k k' : keqb k k' = false -> k <> k'.
Proof. intros E ->. rewrite keqb_refl in E. discriminate. Qed.

Lemma get_set_same k v d : Dict.get k (Dict.set k v d) = Some v.
Proof.
  induction d as [|[k' v'] d IH]; simpl.
  - now rewrite keqb_refl.
  - destruct (keqb k k') eqn:E; simpl; rewrite E; [reflexivity|exact IH].
Qed.

Lemma get_set_other k k' v d :
  k <> k' -> Dict.get k' (Dict.set k v d) = Dict.get k' d.
Proof.
  intros Hne. induction d as [|[k0 v0] d IH]; simpl.
  - rewrite keqb_neq; [reflexivity|congruence].
  - destruct (keqb k k0) eqn:E; simpl.
    + apply keqb_eq in E. subst k0.
      rewrite keqb_neq; [reflexivity|congruence].
    + destruct (keqb k' k0); [reflexivity|exact IH].
Qed.

Lemma get_None_keys k d : Dict.get k d = None <-> ~ In k (Dict.keys d).
Proof.
  induction d as [|[k' v'] d IH]; simpl.
  - tauto.
  - destruct (keqb k k') eqn:E.
    + apply keqb_eq in E. subst. split; [discriminate|tauto].
    + apply keqb_false in E. rewrite IH. split; [|tauto].
      intros Hn [Heq|Hin]; [congruence|tauto].
Qed.

Lemma get_Some_keys k v d : Dict.get k d = Some v -> In k (Dict.keys d).
Proof.
  intros Hg. destruct (in_dec (fun a b =>
    match keqb a b as x return keqb a b = x -> {a = b} + {a <> b} with
    | true => fun E => left (proj1 (keqb_eq a b) E)
    | false => fun E => right (keqb_false a b E)
    end eq_refl) k (Dict.keys d)) as [Hin|Hn]; [exact Hin|].
  apply get_None_keys in Hn. congruence.
Qed.

Lemma keys_In_get k d : In k (Dict.keys d) -> exists v, Dict.get k d = Some v.
Proof.
  intros Hin. destruct (Dict.get k d) eqn:E; [eauto|].
  apply get_None_keys in E. contradiction.
Qed.

Lemma get_Some_In k v d : Dict.get k d = Some v -> In (k, v) d.
Proof.
  induction d as [|[k' v'] d IH]; simpl; [discriminate|].
  destruct (keqb k k') eqn:E.
  - apply keqb_eq in E. subst. intros [= ->]. now left.
  - intros Hg. right. auto.
Qed.

Lemma In_get_NoDup k v d :
  NoDup (Dict.keys d) -> In (k, v) d -> Dict.get k d = Some v.
Proof.
  induction d as [|[k' v'] d IH]; simpl; [tauto|].
  intros Hnd [Heq|Hin]; inversion Hnd as [|? ? Hni Hnd']; subst.
  - injection Heq as -> ->. now rewrite keqb_refl.
  - destruct (keqb k k') eqn:E.
    + apply keqb_eq in E. subst. exfalso. apply Hni.
      change (In (fst (k', v)) (map fst d)). now apply in_map.
    + auto.
Qed.

Lemma keys_set k v d :
  Dict.keys (Dict.set k v d)
  = if Dict.mem k d then Dict.keys d else Dict.keys d ++ [k].
Proof.
  unfold Dict.mem. induction d as [|[k' v'] d IH]; simpl; [reflexivity|].
  destruct (keqb k k') eqn:E; simpl; [reflexivity|].
  rewrite IH. unfold Dict.keys. now destruct (Dict.get k d).
Qed.

Lemma keys_set_In k k' v d :
  In k' (Dict.keys (Dict.set k v d)) <-> k' = k \/ In k' (Dict.keys d).
Proof.
  rewrite keys_set. unfold Dict.mem.
  destruct (Dict.get k d) eqn:E.
  - apply get_Some_keys in E. split; [tauto|]. intros [->|]; assumption.
  - rewrite in_app_iff. simpl. intuition.
Qed.

Lemma NoDup_keys_set k v d :
  NoDup (Dict.keys d) -> NoDup (Dict.keys (Dict.set k v d)).
Proof.
  intros Hnd. rewrite keys_set. unfold Dict.mem.
  destruct (Dict.get k d) eqn:E; [exact Hnd|].
  apply get_None_keys in E.
  apply NoDup_app; [exact Hnd|repeat constructor; simpl; tauto|].
  intros x Hx [<-|[]]. contradiction.
Qed.

Lemma In_set k k' v v' d :
  In (k', v') (Dict.set k v d) -> In (k', v') d \/ (k' = k /\ v' = v).
Proof.
  induction d as [|[k0 v0] d IH]; simpl.
  - intros [[= <- <-]|[]]. now right.
  - destruct (keqb k k0) eqn:E; simpl.
    + apply keqb_eq in E. subst k0.
      intros [[= <- <-]|Hin]; [now right|tauto].
    + intros [Heq|Hin]; [tauto|]. destruct (IH Hin); tauto.
Qed.
End DictFacts.

(** ** Strings *)

Lemma digits_all_digit s d r : digits s = (d, r) -> all_chars is_digit d = true.
Proof.
  revert d r. induction s as [|c s IH]; simpl; intros d r.
  - intros [= <- <-]. reflexivity.
  - destruct (is_digit c) eqn:E.
    + destruct (digits s) as [d' r'] eqn:Ed. intros [= <- <-]. simpl.
      rewrite E. simpl. eapply IH. reflexivity.
    + intros [= <- <-]. reflexivity.
Qed.

Lemma int_unsigned_Some s v :
  int_unsigned s = Some v ->
  int_digits false 0 s = Some v
  /\ (count_digits s <= int_max_str_digits)%N.
Proof.
  destruct s as [|c s]; [discriminate|]. unfold int_unsigned.
  destruct (Ascii.eqb c "_"); [discriminate|].
  destruct (N.leb_spec (count_digits (String c s)) int_max_str_digits)
    as [Hle|_]; [|discriminate].
  intros Hi. now split.
Qed.

Lemma int_of_digit_first c s :
  is_digit c = true -> int (String c s) = int_unsigned (String c s).
Proof.
  destruct c as [[] [] [] [] [] [] [] []]; try discriminate; reflexivity.
Qed.

(** ** parse_questions *)

Lemma get_append_to_same n h qs :
  Dict.get n (append_to n h qs) = Some (or_nil (Dict.get n qs) ++ [h]).
Proof.
  unfold append_to. destruct (Dict.get n qs); apply get_set_same.
Qed.

Lemma get_append_to_other n N h qs :
  n <> N -> Dict.get N (append_to n h qs) = Dict.get N qs.
Proof.
  intros Hne. unfold append_to.
  destruct (Dict.get n qs); now apply get_set_other.
Qed.

Lemma NoDup_append_to n h qs :
  NoDup (Dict.keys qs) -> NoDup (Dict.keys (append_to n h qs)).
Proof.
  intros Hnd. unfold append_to.
  destruct (Dict.get n qs); now apply NoDup_keys_set.
Qed.

Lemma parse_questions_loop_spec headers :
  forall qs qs',
    NoDup (Dict.keys qs) ->
    parse_questions_loop headers qs = Ok qs' ->
    NoDup (Dict.keys qs')
    /\ forall N, Dict.get N qs'
                 = match matching N headers with
                   | [] => Dict.get N qs
                   | g => Some (or_nil (Dict.get N qs) ++ g)
                   end.
Proof.
  induction headers as [|h rest IH]; intros qs qs' Hnd; simpl.
  - intros [= <-]. now split.
  - unfold has_question, header_question.
    destruct (pattern_match h) as [g1|] eqn:Hm.
    + destruct (int g1) as [n|] eqn:Hn; [|discriminate]. intros Hloop.
      destruct (IH (append_to n h qs) qs' (NoDup_append_to n h qs Hnd) Hloop)
        as (Hnd' & Hget).
      split; [exact Hnd'|].
      intros N. rewrite Hget. fold (matching N rest).
      destruct (Z.eqb_spec n N) as [->|Hne].
      * rewrite get_append_to_same.
        destruct (matching N rest); [reflexivity|].
        simpl or_nil. now rewrite <- app_assoc.
      * now rewrite get_append_to_other.
    + apply IH, Hnd.
Qed.

Lemma parse_questions_spec headers questions :
  parse_questions headers = Ok questions ->
  NoDup (Dict.keys questions)
  /\ forall N, Dict.get N questions
               = match matching N headers with
                 | [] => None
                 | g => Some g
                 end.
Proof.
  intros Hp.
  exact (parse_questions_loop_spec headers [] questions (NoDup_nil _) Hp).
Qed.

(** ** compute_grades *)

Lemma grade_of_valid val v :
  int val = Some v -> 0 <= v <= 4 -> grade_of val = (v, true).
Proof.
  intros Hi Hr. unfold grade_of.
  destruct (String.eqb_spec val "") as [->|_]; [discriminate|].
  rewrite Hi.
  destruct (Z.leb_spec 0 v); [|lia]. destruct (Z.leb_spec v 4); [|lia].
  reflexivity.
Qed.

Lemma grade_of_invalid val :
  val = "" \/ int val = None
  \/ (exists v, int val = Some v /\ (v < 0 \/ 4 < v)) ->
  grade_of val = (0, false).
Proof.
  unfold grade_of. intros [->|[Hi|(v & Hi & Hr)]]; [reflexivity| |].
  - rewrite Hi. now destruct (String.eqb val "").
  - rewrite Hi. destruct (String.eqb val ""); [reflexivity|].
    destruct (Z.leb_spec 0 v); destruct (Z.leb_spec v 4); simpl;
      try reflexivity; lia.
Qed.

Lemma valid_or_invalid c : valid_cell c \/ blank_or_invalid c.
Proof.
  unfold valid_cell, blank_or_invalid.
  destruct (int (value_of c)) as [v|] eqn:Hi; [|tauto].
  destruct (Z_le_dec 0 v); [destruct (Z_le_dec v 4)|].
  - left. eauto.
  - right. right. right. exists v. split; [reflexivity|lia].
  - right. right. right. exists v. split; [reflexivity|lia].
Qed.

Lemma valid_not_invalid c : valid_cell c -> blank_or_invalid c -> False.
Proof.
  intros (v & Hi & Hr) [He|[Hn|(v' & Hi' & Hr')]].
  - rewrite He in Hi. discriminate.
  - congruence.
  - rewrite Hi in Hi'. injection Hi' as <-. lia.
Qed.

Lemma grade_of_snd_valid c :
  snd (grade_of (value_of c)) = true <-> valid_cell c.
Proof.
  split.
  - intros Hs. destruct (valid_or_invalid c) as [Hv|Hb]; [exact Hv|].
    rewrite (grade_of_invalid _ Hb) in Hs. discriminate.
  - intros (v & Hi & Hr). now rewrite (grade_of_valid _ v Hi Hr).
Qed.

Lemma grade_of_range val : 0 <= fst (grade_of val) <= 4.
Proof.
  unfold grade_of. destruct (String.eqb val ""); simpl; [lia|].
  destruct (int val) as [v|]; simpl; [|lia].
  destruct (Z.leb_spec 0 v); destruct (Z.leb_spec v 4); simpl; lia.
Qed.

Lemma compute_grades_loop_spec r cols :
  has_columns r cols ->
  forall res h,
    compute_grades_loop r cols res h
    = Ok (res ++ map (grade_at r) cols, h || existsb (flag_at r) cols).
Proof.
  induction cols as [|col rest IH]; intros Hc res h; simpl.
  - now rewrite app_nil_r, orb_false_r.
  - destruct (Hc col (or_introl eq_refl)) as [c Hg].
    assert (has_columns r rest) as Hrest by (intros x Hx; apply Hc; now right).
    unfold getitem, grade_at, flag_at, cell_of, value_of, grade_of.
    rewrite Hg. cbn [rbind].
    destruct (String.eqb (strip (or_empty c)) "").
    + rewrite (IH Hrest). cbn [fst snd].
      now rewrite <- app_assoc, orb_false_l.
    + destruct (int (strip (or_empty c))) as [v|].
      * destruct ((0 <=? v) && (v <=? 4)); rewrite (IH Hrest); cbn [fst snd];
          rewrite <- app_assoc; [now rewrite orb_true_r|now rewrite orb_false_l].
      * rewrite (IH Hrest). cbn [fst snd].
        now rewrite <- app_assoc, orb_false_l.
Qed.

Lemma compute_grades_spec r cols :
  has_columns r cols ->
  compute_grades r cols
  = Ok (if existsb (flag_at r) cols then Some (map (grade_at r) cols) else None).
Proof.
  intros Hc. unfold compute_grades.
  now rewrite (compute_grades_loop_spec r cols Hc).
Qed.

Lemma nth_error_map_grade r cols i col :
  nth_error cols i = Some col ->
  nth_error (map (grade_at r) cols) i = Some (grade_at r col).
Proof. intros Hn. now rewrite nth_error_map, Hn. Qed.

Lemma grade_at_get r col c :
  Dict.get col r = Some c -> grade_at r col = fst (grade_of (value_of c)).
Proof. intros Hg. unfold grade_at, cell_of. now rewrite Hg. Qed.

Lemma flag_at_get r col c :
  Dict.get col r = Some c -> flag_at r col = snd (grade_of (value_of c)).
Proof. intros Hg. unfold flag_at, cell_of. now rewrite Hg. Qed.

(** C2. In a row that has the response columns, no error is raised and the
    grade computed for a cell is [v] when the stripped cell parses as an
    integer [v] with [0 <= v <= 4], and 0 for every other cell: blank, not an
    integer, or out of range. *)
Theorem subpart_grade_of_cell (r : row) (cols : list string) :
  has_columns r cols ->
  exists result has_any,
    compute_grades_loop r cols [] false = Ok (result, has_any)
    /\ compute_grades r cols = Ok (if has_any then Some result else None)
    /\ List.length result = List.length cols
    /\ forall i col c,
         nth_error cols i = Some col -> Dict.get col r = Some c ->
         (forall v, int (value_of c) = Some v -> 0 <= v <= 4 ->
                    nth_error result i = Some v)
         /\ (~ valid_cell c -> nth_error result i = Some 0)
         /\ (value_of c = "" -> nth_error result i = Some 0).
Proof.
  intros Hc.
  exists (map (grade_at r) cols), (existsb (flag_at r) cols).
  split; [apply (compute_grades_loop_spec r cols Hc [] false)|].
  split; [apply (compute_grades_spec r cols Hc)|].
  split; [apply length_map|].
  intros i col c Hi Hg.
  rewrite (nth_error_map_grade r cols i col Hi), (grade_at_get r col c Hg).
  assert (blank_or_invalid c -> fst (grade_of (value_of c)) = 0) as Hb.
  { intros Hb. now rewrite (grade_of_invalid _ Hb). }
  repeat split.
  - intros v Hv Hr. now rewrite (grade_of_valid _ v Hv Hr).
  - intros Hnv. f_equal. apply Hb.
    destruct (valid_or_invalid c); [contradiction|assumption].
  - intros He. f_equal. apply Hb. now left.
Qed.

(** ** White space around a cell *)

Lemma lstrip_spaces s : all_chars is_space s = true -> lstrip s = "".
Proof.
  induction s as [|c s IH]; simpl; [reflexivity|].
  intros Ha. apply andb_true_iff in Ha as [Hc Hs]. rewrite Hc. auto.
Qed.

Lemma lstrip_spaces_app pre s :
  all_chars is_space pre = true -> lstrip (pre ++ s)%string = lstrip s.
Proof.
  induction pre as [|c pre IH]; simpl; [reflexivity|].
  intros Ha. apply andb_true_iff in Ha as [Hc Hs]. rewrite Hc. auto.
Qed.

Lemma rstrip_spaces s : all_chars is_space s = true -> rstrip s = "".
Proof.
  induction s as [|c s IH]; simpl; [reflexivity|].
  intros Ha. apply andb_true_iff in Ha as [Hc Hs]. now rewrite (IH Hs), Hc.
Qed.

Lemma rstrip_app_spaces s post :
  all_chars is_space post = true -> rstrip (s ++ post)%string = rstrip s.
Proof.
  intros Ha. induction s as [|c s IH]; simpl.
  - now apply rstrip_spaces.
  - now rewrite IH.
Qed.

Lemma strip_spaces s : all_chars is_space s = true -> strip s = "".
Proof. intros Ha. unfold strip. now rewrite (lstrip_spaces s Ha). Qed.

Lemma strip_app_spaces s post :
  all_chars is_space post = true -> strip (s ++ post)%string = strip s.
Proof.
  intros Ha. unfold strip. induction s as [|c s IH]; simpl.
  - now rewrite (lstrip_spaces post Ha).
  - destruct (is_space c); [exact IH|].
    change (String c (s ++ post)%string) with (String c s ++ post)%string.
    now apply rstrip_app_spaces.
Qed.

Lemma strip_padded pre s post :
  all_chars is_space pre = true -> all_chars is_space post = true ->
  strip (pre ++ s ++ post)%string = strip s.
Proof.
  intros Hpre Hpost. unfold strip at 1.
  rewrite (lstrip_spaces_app pre _ Hpre).
  now apply strip_app_spaces.
Qed.

Lemma rstrip_cons c s :
  is_space c = false -> rstrip s = s -> rstrip (String c s) = String c s.
Proof.
  intros Hc Hs. simpl. rewrite Hs, Hc. now destruct s.
Qed.

Lemma int_digits_rstrip s :
  forall b acc v, int_digits b acc s = Some v -> rstrip s = s.
Proof.
  induction s as [|c s IH]; intros b acc v; simpl; [reflexivity|].
  destruct (is_digit c) eqn:Hd.
  - intros Hi. change (rstrip (String c s) = String c s).
    apply rstrip_cons; [|eapply IH, Hi].
    destruct c as [[] [] [] [] [] [] [] []]; try discriminate; reflexivity.
  - destruct (Ascii.eqb_spec c "_") as [->|_]; [|discriminate].
    destruct b; [discriminate|]. intros Hi.
    change (rstrip (String "_" s) = String "_" s).
    apply rstrip_cons; [reflexivity|eapply IH, Hi].
Qed.

Lemma int_unsigned_rstrip s v : int_unsigned s = Some v -> rstrip s = s.
Proof.
  intros Hi. apply int_unsigned_Some in Hi as [Hi _].
  eapply int_digits_rstrip, Hi.
Qed.

Lemma int_first_not_space c s v :
  int (String c s) = Some v -> is_space c = false.
Proof.
  destruct c as [[] [] [] [] [] [] [] []]; try reflexivity;
    cbn [int]; unfold int_unsigned; cbn [Ascii.eqb Bool.eqb];
    destruct (_ <=? _)%N; simpl; intros Hi; discriminate.
Qed.

(** A string that [int] accepts has no white space at its ends. *)
Lemma int_strip s v : int s = Some v -> strip s = s.
Proof.
  destruct s as [|c s]; [discriminate|]. intros Hi.
  pose proof (int_first_not_space c s v Hi) as Hc.
  unfold strip. simpl lstrip. rewrite Hc.
  assert (rstrip s = s) as Hs.
  { revert Hi. unfold int.
    destruct (Ascii.eqb_spec c "+") as [->|Hp].
    - apply int_unsigned_rstrip.
    - destruct (Ascii.eqb_spec c "-") as [->|Hm].
      + destruct (int_unsigned s) as [u|] eqn:Hu; [|discriminate].
        intros _. eapply int_unsigned_rstrip, Hu.
      + intros Hi.
        assert (int_unsigned (String c s) = Some v) as Hu.
        { revert Hi.
          destruct c as [[] [] [] [] [] [] [] []]; try exact (fun H => H);
            contradiction. }
        apply int_unsigned_rstrip in Hu. simpl in Hu.
        destruct (rstrip s) eqn:Er.
        * destruct (is_space c); [discriminate|]. now injection Hu.
        * now injection Hu. }
  now apply rstrip_cons.
Qed.

(** C9. [compute_grades] raises nothing on a row that has a cell, a string
    or [None], in every response column.  A [None] cell and a cell of white
    space only get grade 0, and a cell that is an integer literal between
    white space gets the grade of the literal: [" 3 "] yields 3. *)
Theorem compute_grades_total (r : row) (cols : list string) :
  has_columns r cols ->
  exists result has_any,
    compute_grades_loop r cols [] false = Ok (result, has_any)
    /\ compute_grades r cols = Ok (if has_any then Some result else None)
    /\ (forall i col,
          nth_error cols i = Some col ->
          (Dict.get col r = Some None -> nth_error result i = Some 0)
          /\ (forall s, Dict.get col r = Some (Some s) ->
                        all_chars is_space s = true ->
                        nth_error result i = Some 0)
          /\ (forall pre s post v,
                Dict.get col r = Some (Some (pre ++ s ++ post)%string) ->
                all_chars is_space pre = true ->
                all_chars is_space post = true ->
                int s = Some v -> 0 <= v <= 4 ->
                nth_error result i = Some v))
    /\ compute_grades [("Question 1 Response", Some " 3 ")]
                      ["Question 1 Response"] = Ok (Some [3]).
Proof.
  intros Hc.
  exists (map (grade_at r) cols), (existsb (flag_at r) cols).
  split; [apply (compute_grades_loop_spec r cols Hc [] false)|].
  split; [apply (compute_grades_spec r cols Hc)|].
  split; [|reflexivity].
  intros i col Hi. rewrite (nth_error_map_grade r cols i col Hi).
  repeat split.
  - intros Hg. now rewrite (grade_at_get r col None Hg).
  - intros s Hg Hs. rewrite (grade_at_get r col _ Hg).
    unfold value_of. simpl or_empty. now rewrite (strip_spaces s Hs).
  - intros pre s post v Hg Hpre Hpost Hv Hr.
    rewrite (grade_at_get r col _ Hg).
    unfold value_of. simpl or_empty.
    rewrite (strip_padded pre s post Hpre Hpost), (int_strip s v Hv).
    now rewrite (grade_of_valid s v Hv Hr).
Qed.

(** ** The sentinel *)

Lemma existsb_flag_false r cols :
  has_columns r cols ->
  (existsb (flag_at r) cols = false
   <-> forall col c, In col cols -> Dict.get col r = Some c ->
                     blank_or_invalid c).
Proof.
  intros Hc. split.
  - intros He col c Hin Hg.
    destruct (valid_or_invalid c) as [Hv|Hb]; [|exact Hb].
    apply grade_of_snd_valid in Hv. rewrite <- (flag_at_get r col c Hg) in Hv.
    assert (existsb (flag_at r) cols = true) as Ht
      by (apply existsb_exists; eauto).
    congruence.
  - intros Hall. destruct (existsb (flag_at r) cols) eqn:He; [|reflexivity].
    apply existsb_exists in He as (col & Hin & Hf).
    destruct (Hc col Hin) as [c Hg].
    rewrite (flag_at_get r col c Hg) in Hf. apply grade_of_snd_valid in Hf.
    destruct (valid_not_invalid c Hf (Hall col c Hin Hg)).
Qed.

Lemma compute_grades_None_iff r cols :
  has_columns r cols ->
  (compute_grades r cols = Ok None
   <-> forall col c, In col cols -> Dict.get col r = Some c ->
                     blank_or_invalid c).
Proof.
  intros Hc. rewrite (compute_grades_spec r cols Hc).
  rewrite <- (existsb_flag_false r cols Hc).
  destruct (existsb (flag_at r) cols); split; congruence.
Qed.

(** C1, as stated, fails: in the row whose only response cell is "0" no
    column yields a value in (0,4], yet [compute_grades] returns the vector
    [0] and not the sentinel, and the row overwrites the entry [3] of its
    submission. *)
Lemma zero_row_is_not_sentinel :
  (forall col c v, In col q1_cols -> Dict.get col (q1_row "0") = Some c ->
                   int (value_of c) = Some v -> ~ (0 < v <= 4))
  /\ compute_grades (q1_row "0") q1_cols = Ok (Some [0])
  /\ grade_row s1_lookup q1_cols [("sub1", [3])] (q1_row "0")
     = Ok [("sub1", [0])].
Proof.
  split; [|split; reflexivity].
  intros col c v [<-|[]] [= <-]. cbv. intros [= <-]. intuition discriminate.
Qed.

(** C1, amended.  In a row that has the response columns, [compute_grades]
    returns the sentinel if and only if every response cell is blank, not an
    integer or out of [0,4]: a cell "0" counts as a grade.  So a row whose
    every cell is "0" returns the vector of zeros, and a row changes the
    mapping only by storing the vector of a row that has a valid cell. *)
Theorem compute_grades_sentinel_iff (r : row) (cols : list string) :
  has_columns r cols ->
  (compute_grades r cols = Ok None
   <-> forall col c, In col cols -> Dict.get col r = Some c ->
                     blank_or_invalid c)
  /\ (cols <> [] ->
      (forall col, In col cols -> Dict.get col r = Some (Some "0")) ->
      compute_grades r cols = Ok (Some (repeat 0 (List.length cols))))
  /\ (forall lookup grades grades',
        grade_row lookup cols grades r = Ok grades' ->
        grades' = grades
        \/ exists sub v col c,
             grades' = Dict.set sub v grades
             /\ compute_grades r cols = Ok (Some v)
             /\ In col cols /\ Dict.get col r = Some c /\ valid_cell c).
Proof.
  intros Hc. split; [apply (compute_grades_None_iff r cols Hc)|]. split.
  - intros Hne Hz. rewrite (compute_grades_spec r cols Hc).
    assert (forall col, In col cols -> grade_at r col = 0 /\ flag_at r col = true)
      as Hall.
    { intros col Hin.
      rewrite (grade_at_get r col _ (Hz col Hin)),
              (flag_at_get r col _ (Hz col Hin)). now split. }
    assert (existsb (flag_at r) cols = true) as ->.
    { destruct cols as [|col rest]; [contradiction|].
      apply existsb_exists. exists col. split; [now left|].
      apply Hall. now left. }
    do 2 f_equal. clear Hne Hz Hc.
    induction cols as [|col rest IH]; simpl; [reflexivity|].
    rewrite (proj1 (Hall col (or_introl eq_refl))). f_equal.
    apply IH. intros x Hx. apply Hall. now right.
  - intros lookup grades grades'. unfold grade_row, getitem.
    destruct (Dict.get "Student ID" r) as [[s|]|]; simpl; try discriminate.
    destruct (Dict.get (strip s) lookup) as [sub|]; [|intros [= <-]; now left].
    destruct (compute_grades r cols) as [[v|]|e] eqn:Hcg; simpl;
      [|intros [= <-]; now left|discriminate].
    intros [= <-]. right.
    rewrite (compute_grades_spec r cols Hc) in Hcg.
    destruct (existsb (flag_at r) cols) eqn:He; [|discriminate].
    apply existsb_exists in He as (col & Hin & Hf).
    destruct (Hc col Hin) as [c Hg].
    rewrite (flag_at_get r col c Hg) in Hf. apply grade_of_snd_valid in Hf.
    exists sub, v, col, c. repeat split; assumption.
Qed.

(** C7. A metadata row of a student, with every response cell blank or
    invalid, leaves the grade mapping as it was: no entry is overwritten. *)
Theorem invalid_row_keeps_entry
    (lookup : Dict.t string string) (cols : list string)
    (grades : Dict.t string (list Z)) (r : row) (s : string) :
  Dict.get "Student ID" r = Some (Some s) ->
  has_columns r cols ->
  (forall col c, In col cols -> Dict.get col r = Some c -> blank_or_invalid c) ->
  grade_row lookup cols grades r = Ok grades.
Proof.
  intros Hs Hc Hb. unfold grade_row, getitem. rewrite Hs. simpl.
  destruct (Dict.get (strip s) lookup); [|reflexivity].
  now rewrite (proj2 (compute_grades_None_iff r cols Hc) Hb).
Qed.

(** ** Invariants of the grade mapping *)

Lemma compute_grades_loop_Ok_has_columns r cols :
  forall res h out,
    compute_grades_loop r cols res h = Ok out -> has_columns r cols.
Proof.
  induction cols as [|col rest IH]; intros res h out; simpl.
  - intros _ x [].
  - unfold getitem. destruct (Dict.get col r) as [c|] eqn:Hg; [|discriminate].
    cbn [rbind]. intros Hl x [<-|Hin]; [eauto|]. revert Hl.
    destruct (String.eqb (strip (or_empty c)) "");
      [|destruct (int (strip (or_empty c))) as [v|];
        [destruct ((0 <=? v) && (v <=? 4))|]];
      intros Hl; eapply IH; eassumption.
Qed.

Lemma compute_grades_Ok_has_columns r cols out :
  compute_grades r cols = Ok out -> has_columns r cols.
Proof.
  unfold compute_grades.
  destruct (compute_grades_loop r cols [] false) as [x|] eqn:Hl; [|discriminate].
  intros _. eapply compute_grades_loop_Ok_has_columns, Hl.
Qed.

Lemma compute_grades_Some r cols v :
  compute_grades r cols = Ok (Some v) -> v = map (grade_at r) cols.
Proof.
  intros Hcg. pose proof (compute_grades_Ok_has_columns r cols _ Hcg) as Hc.
  rewrite (compute_grades_spec r cols Hc) in Hcg.
  destruct (existsb (flag_at r) cols); congruence.
Qed.

Lemma default_grades_In l n :
  forall k v, In (k, v) (default_grades l n) -> v = repeat 0 n.
Proof.
  unfold default_grades.
  enough (forall vals (acc : Dict.t string (list Z)),
            (forall k v, In (k, v) acc -> v = repeat 0 n) ->
            forall k v,
              In (k, v) (fold_left (fun grades sub_id =>
                                      Dict.set sub_id (repeat 0 n) grades)
                                   vals acc) ->
              v = repeat 0 n) as Hgen.
  { apply Hgen. intros k v []. }
  induction vals as [|x vals IH]; intros acc Hacc; simpl; [exact Hacc|].
  apply IH. intros k v Hin. apply In_set in Hin as [Hin|[_ ->]]; eauto.
Qed.

Section ValuesInvariant.
Variable P : list Z -> Prop.
Variable lookup : Dict.t string string.
Variable cols : list string.
Hypothesis P_computed :
  forall r v, compute_grades r cols = Ok (Some v) -> P v.

Lemma grade_row_values r g g' :
  (forall k v, In (k, v) g -> P v) ->
  grade_row lookup cols g r = Ok g' ->
  forall k v, In (k, v) g' -> P v.
Proof.
  intros Hg. unfold grade_row, getitem.
  destruct (Dict.get "Student ID" r) as [[s|]|]; simpl; try discriminate.
  destruct (Dict.get (strip s) lookup) as [sub|]; [|now intros [= <-]].
  destruct (compute_grades r cols) as [[w|]|e] eqn:Hcg; simpl;
    [|now intros [= <-]|discriminate].
  intros [= <-] k v Hin. apply In_set in Hin as [Hin|[_ ->]]; eauto.
Qed.

Lemma grade_rows_values rows :
  forall g g',
    (forall k v, In (k, v) g -> P v) ->
    grade_rows lookup cols rows g = Ok g' ->
    forall k v, In (k, v) g' -> P v.
Proof.
  induction rows as [|r rest IH]; intros g g' Hg; simpl.
  - now intros [= <-].
  - destruct (grade_row lookup cols g r) as [g1|] eqn:Hr; [|discriminate].
    simpl. apply IH. eapply grade_row_values; eassumption.
Qed.
End ValuesInvariant.

(** C4. In the grade mapping of a question, once every metadata row is
    processed, each vector has one entry per response column of the
    question; so have the default vectors and every vector returned by
    [compute_grades]. *)
Theorem grade_vector_length
    (lookup : Dict.t string string) (cols : list string) (rows : list row)
    (grades : Dict.t string (list Z)) :
  question_grades lookup cols rows = Ok grades ->
  (forall sub v, Dict.get sub grades = Some v ->
                 List.length v = List.length cols)
  /\ (forall sub v,
        Dict.get sub (default_grades lookup (List.length cols)) = Some v ->
        v = repeat 0 (List.length cols)
        /\ List.length v = List.length cols)
  /\ (forall r v, compute_grades r cols = Ok (Some v) ->
                  List.length v = List.length cols).
Proof.
  intros Hq.
  assert (forall r v, compute_grades r cols = Ok (Some v) ->
                      List.length v = List.length cols) as Hcomp.
  { intros r v Hcg. rewrite (compute_grades_Some r cols v Hcg).
    apply length_map. }
  assert (forall sub v,
            In (sub, v) (default_grades lookup (List.length cols)) ->
            List.length v = List.length cols) as Hdef.
  { intros sub v Hin. rewrite (default_grades_In _ _ sub v Hin).
    apply repeat_length. }
  split; [|split; [|exact Hcomp]].
  - intros sub v Hg. apply get_Some_In in Hg.
    exact (grade_rows_values (fun v => List.length v = List.length cols)
             lookup cols Hcomp rows _ grades Hdef Hq sub v Hg).
  - intros sub v Hg. apply get_Some_In in Hg.
    pose proof (default_grades_In _ _ sub v Hg) as ->.
    split; [reflexivity|apply repeat_length].
Qed.

(** ** Which row determines an entry *)

Lemma grade_rows_app l cols pre rest g :
  grade_rows l cols (pre ++ rest) g
  = (do g1 <- grade_rows l cols pre g; grade_rows l cols rest g1).
Proof.
  revert g. induction pre as [|r pre IH]; intros g; simpl; [reflexivity|].
  destruct (grade_row l cols g r); simpl; [apply IH|reflexivity].
Qed.

Lemma grade_row_leaves_alone l cols sub r g g' :
  leaves_alone l cols sub r ->
  grade_row l cols g r = Ok g' ->
  Dict.get sub g' = Dict.get sub g.
Proof.
  intros Hla. unfold grade_row, getitem.
  destruct (Dict.get "Student ID" r) as [[s|]|] eqn:Hs; simpl; try discriminate.
  destruct (Dict.get (strip s) l) as [sub'|] eqn:Hl; [|now intros [= <-]].
  destruct (compute_grades r cols) as [[w|]|e] eqn:Hcg; simpl;
    [|now intros [= <-]|discriminate].
  intros [= <-]. apply get_set_other. intros ->.
  rewrite (Hla s Hs Hl) in Hcg. discriminate.
Qed.

Lemma grade_rows_leave_alone l cols sub rows :
  forall g g',
    (forall r, In r rows -> leaves_alone l cols sub r) ->
    grade_rows l cols rows g = Ok g' ->
    Dict.get sub g' = Dict.get sub g.
Proof.
  induction rows as [|r rest IH]; intros g g' Hla; simpl.
  - now intros [= <-].
  - destruct (grade_row l cols g r) as [g1|] eqn:Hr; [|discriminate]. simpl.
    intros Hrest. rewrite (IH g1 g' (fun x Hx => Hla x (or_intror Hx)) Hrest).
    eapply grade_row_leaves_alone; [|exact Hr]. apply Hla. now left.
Qed.

Lemma grade_row_writes l cols (r : row) g s sub v :
  Dict.get "Student ID" r = Some (Some s) ->
  Dict.get (strip s) l = Some sub ->
  compute_grades r cols = Ok (Some v) ->
  grade_row l cols g r = Ok (Dict.set sub v g).
Proof.
  intros Hs Hl Hcg. unfold grade_row, getitem. rewrite Hs. cbn [rbind].
  rewrite Hl, Hcg. reflexivity.
Qed.

Lemma grade_rows_last_writer l cols pre (r : row) post g g' s sub v :
  Dict.get "Student ID" r = Some (Some s) ->
  Dict.get (strip s) l = Some sub ->
  compute_grades r cols = Ok (Some v) ->
  (forall r', In r' post -> leaves_alone l cols sub r') ->
  grade_rows l cols (pre ++ r :: post) g = Ok g' ->
  Dict.get sub g' = Some v.
Proof.
  intros Hs Hl Hcg Hpost. rewrite grade_rows_app.
  destruct (grade_rows l cols pre g) as [g1|]; [|discriminate].
  cbn [rbind grade_rows].
  rewrite (grade_row_writes l cols r g1 s sub v Hs Hl Hcg). cbn [rbind].
  intros Hrest.
  rewrite (grade_rows_leave_alone l cols sub post _ g' Hpost Hrest).
  apply get_set_same.
Qed.

(** C5, as stated, fails: of two rows of student [s1], the first with the
    cell "3" and the last with a blank cell, the last one computes the
    sentinel and the final vector is the one of the first row. *)
Lemma last_row_blank_keeps_earlier :
  question_grades s1_lookup q1_cols [q1_row "3"; q1_row ""]
  = Ok [("sub1", [3])]
  /\ compute_grades (q1_row "3") q1_cols = Ok (Some [3])
  /\ compute_grades (q1_row "") q1_cols = Ok None.
Proof. repeat split; reflexivity. Qed.

(** C5, amended.  The final vector of a submission is the one computed from
    the last metadata row, in file order, of a student of that submission
    for which [compute_grades] did not return the sentinel: the later rows
    of the submission, which return the sentinel, leave it in place. *)
Theorem last_graded_row_wins
    (lookup : Dict.t string string) (cols : list string)
    (pre post : list row) (r : row) (s sub : string) (v : list Z)
    (grades : Dict.t string (list Z)) :
  Dict.get "Student ID" r = Some (Some s) ->
  Dict.get (strip s) lookup = Some sub ->
  compute_grades r cols = Ok (Some v) ->
  (forall r' s', In r' post ->
                 Dict.get "Student ID" r' = Some (Some s') ->
                 Dict.get (strip s') lookup = Some sub ->
                 compute_grades r' cols = Ok None) ->
  question_grades lookup cols (pre ++ r :: post) = Ok grades ->
  Dict.get sub grades = Some v.
Proof.
  intros Hs Hl Hcg Hpost Hq.
  eapply grade_rows_last_writer; [exact Hs|exact Hl|exact Hcg| |exact Hq].
  intros r' Hin s' Hs' Hl'. eapply Hpost; eassumption.
Qed.

(** ** One entry per submission *)

Lemma fold_set_keys (n : nat) vals :
  forall acc : Dict.t string (list Z),
    NoDup (Dict.keys acc) ->
    let d := fold_left (fun grades sub_id => Dict.set sub_id (repeat 0 n) grades)
                       vals acc in
    NoDup (Dict.keys d)
    /\ forall k, In k (Dict.keys d) <-> In k (Dict.keys acc) \/ In k vals.
Proof.
  induction vals as [|x vals IH]; intros acc Hnd; simpl.
  - split; [exact Hnd|]. intros k. tauto.
  - destruct (IH (Dict.set x (repeat 0 n) acc)
                 (NoDup_keys_set x _ acc Hnd)) as [Hnd' Hin].
    split; [exact Hnd'|]. intros k. rewrite Hin, keys_set_In.
    intuition (subst; auto).
Qed.

Lemma default_grades_keys l n :
  NoDup (Dict.keys (default_grades l n))
  /\ forall k, In k (Dict.keys (default_grades l n)) <-> In k (Dict.values l).
Proof.
  destruct (fold_set_keys n (Dict.values l) [] (NoDup_nil _)) as [Hnd Hin].
  split; [exact Hnd|]. intros k. unfold default_grades. rewrite Hin.
  simpl. tauto.
Qed.

Lemma get_In_values (l : Dict.t string string) sid sub :
  Dict.get sid l = Some sub -> In sub (Dict.values l).
Proof.
  intros Hg. apply get_Some_In in Hg.
  change sub with (snd (sid, sub)). now apply in_map.
Qed.

Lemma grade_row_keys l cols g r g' :
  (forall sub, In sub (Dict.values l) -> In sub (Dict.keys g)) ->
  grade_row l cols g r = Ok g' ->
  Dict.keys g' = Dict.keys g.
Proof.
  intros Hk. unfold grade_row, getitem.
  destruct (Dict.get "Student ID" r) as [[s|]|]; simpl; try discriminate.
  destruct (Dict.get (strip s) l) as [sub|] eqn:Hl; [|now intros [= <-]].
  destruct (compute_grades r cols) as [[w|]|e]; simpl;
    [|now intros [= <-]|discriminate].
  intros [= <-]. rewrite keys_set. unfold Dict.mem.
  destruct (keys_In_get sub g (Hk sub (get_In_values l _ sub Hl))) as [x ->].
  reflexivity.
Qed.

Lemma grade_rows_keys l cols rows :
  forall g g',
    (forall sub, In sub (Dict.values l) -> In sub (Dict.keys g)) ->
    grade_rows l cols rows g = Ok g' ->
    Dict.keys g' = Dict.keys g.
Proof.
  induction rows as [|r rest IH]; intros g g' Hk; simpl.
  - now intros [= <-].
  - destruct (grade_row l cols g r) as [g1|] eqn:Hr; [|discriminate]. simpl.
    pose proof (grade_row_keys l cols g r g1 Hk Hr) as Hk1.
    intros Hrest. rewrite <- Hk1. apply IH; [|exact Hrest].
    rewrite Hk1. exact Hk.
Qed.

Lemma question_grades_keys l cols rows g :
  question_grades l cols rows = Ok g ->
  Dict.keys g = Dict.keys (default_grades l (List.length cols)).
Proof.
  apply grade_rows_keys. intros sub. apply default_grades_keys.
Qed.

(** ** The scores file *)

Lemma build_app pre rest d :
  build_sid_to_submission (pre ++ rest) d
  = (do d1 <- build_sid_to_submission pre d; build_sid_to_submission rest d1).
Proof.
  revert d. induction pre as [|r pre IH]; intros d; simpl; [reflexivity|].
  destruct (getitem r "SID"); simpl; [|reflexivity].
  destruct (getitem r "Submission ID"); simpl; [|reflexivity].
  destruct (truthy _ && truthy _); apply IH.
Qed.

Lemma build_NoDup rows :
  forall d d', NoDup (Dict.keys d) ->
               build_sid_to_submission rows d = Ok d' -> NoDup (Dict.keys d').
Proof.
  induction rows as [|r rest IH]; intros d d' Hnd; simpl.
  - now intros [= <-].
  - destruct (getitem r "SID"); simpl; [|discriminate].
    destruct (getitem r "Submission ID"); simpl; [|discriminate].
    destruct (truthy _ && truthy _); apply IH; [|exact Hnd].
    now apply NoDup_keys_set.
Qed.

Lemma truthy_true s : truthy s = true <-> s <> "".
Proof.
  unfold truthy. destruct (String.eqb_spec s ""); simpl; split;
    congruence.
Qed.

Lemma build_later_rows sid rows :
  forall d d',
    (forall (r' : row) c1 c2,
        In r' rows -> Dict.get "SID" r' = Some c1 ->
        Dict.get "Submission ID" r' = Some c2 ->
        value_of c1 = sid -> value_of c2 = "") ->
    build_sid_to_submission rows d = Ok d' ->
    Dict.get sid d' = Dict.get sid d.
Proof.
  induction rows as [|r rest IH]; intros d d' Hlater; simpl.
  - now intros [= <-].
  - unfold getitem.
    destruct (Dict.get "SID" r) as [c1|] eqn:H1; simpl; [|discriminate].
    destruct (Dict.get "Submission ID" r) as [c2|] eqn:H2; simpl; [|discriminate].
    assert (forall (r' : row) c1 c2,
               In r' rest -> Dict.get "SID" r' = Some c1 ->
               Dict.get "Submission ID" r' = Some c2 ->
               value_of c1 = sid -> value_of c2 = "") as Hrest
      by (intros r' a b Hin; apply Hlater; now right).
    destruct (truthy (strip (or_empty c1)) && truthy (strip (or_empty c2)))
      eqn:Ht.
    + intros Hb. rewrite (IH _ d' Hrest Hb).
      apply get_set_other. intros Heq.
      apply andb_true_iff in Ht as [_ Ht2]. apply truthy_true in Ht2.
      apply Ht2. exact (Hlater r c1 c2 (or_introl eq_refl) H1 H2 Heq).
    + apply IH, Hrest.
Qed.

Lemma build_last_writer pre (r : row) post d d' c1 c2 :
  Dict.get "SID" r = Some c1 ->
  Dict.get "Submission ID" r = Some c2 ->
  value_of c1 <> "" -> value_of c2 <> "" ->
  (forall (r' : row) c1' c2',
      In r' post -> Dict.get "SID" r' = Some c1' ->
      Dict.get "Submission ID" r' = Some c2' ->
      value_of c1' = value_of c1 -> value_of c2' = "") ->
  build_sid_to_submission (pre ++ r :: post) d = Ok d' ->
  Dict.get (value_of c1) d' = Some (value_of c2).
Proof.
  intros H1 H2 Hn1 Hn2 Hlater. rewrite build_app.
  destruct (build_sid_to_submission pre d) as [d1|]; [|discriminate].
  cbn [rbind build_sid_to_submission]. unfold getitem. rewrite H1, H2.
  cbn [rbind]. fold (value_of c1) (value_of c2).
  rewrite (proj2 (truthy_true _) Hn1), (proj2 (truthy_true _) Hn2).
  cbn [andb]. intros Hb.
  rewrite (build_later_rows _ post _ d' Hlater Hb). apply get_set_same.
Qed.

(** C10.  The grade mapping has one entry per submission ID of the lookup
    and no other.  When two distinct student IDs map to one submission, the
    mapping holds exactly one entry for it, and its final vector is the one
    of the last row of either student for which [compute_grades] did not
    return the sentinel.  In the lookup built from the scores file a SID has
    one entry, the submission ID of the last row that gives it one. *)
Theorem shared_submission_entry
    (scores_rows : list row) (lookup : Dict.t string string)
    (cols : list string) (rows : list row)
    (grades : Dict.t string (list Z)) :
  build_sid_to_submission scores_rows [] = Ok lookup ->
  question_grades lookup cols rows = Ok grades ->
  NoDup (Dict.keys lookup)
  /\ NoDup (Dict.keys grades)
  /\ (forall sub, In sub (Dict.keys grades) <-> In sub (Dict.values lookup))
  /\ (forall s1 s2 sub,
        s1 <> s2 ->
        Dict.get s1 lookup = Some sub -> Dict.get s2 lookup = Some sub ->
        count_occ string_dec (Dict.keys grades) sub = 1%nat
        /\ forall pre (r : row) post s v,
             rows = pre ++ r :: post ->
             Dict.get "Student ID" r = Some (Some s) ->
             strip s = s1 \/ strip s = s2 ->
             compute_grades r cols = Ok (Some v) ->
             (forall r', In r' post -> leaves_alone lookup cols sub r') ->
             Dict.get sub grades = Some v)
  /\ (forall pre (r : row) post c1 c2,
        scores_rows = pre ++ r :: post ->
        Dict.get "SID" r = Some c1 ->
        Dict.get "Submission ID" r = Some c2 ->
        value_of c1 <> "" -> value_of c2 <> "" ->
        (forall (r' : row) c1' c2',
            In r' post -> Dict.get "SID" r' = Some c1' ->
            Dict.get "Submission ID" r' = Some c2' ->
            value_of c1' = value_of c1 -> value_of c2' = "") ->
        Dict.get (value_of c1) lookup = Some (value_of c2)).
Proof.
  intros Hb Hq.
  pose proof (question_grades_keys lookup cols rows grades Hq) as Hk.
  destruct (default_grades_keys lookup (List.length cols)) as [Hnd Hin].
  rewrite <- Hk in Hnd, Hin.
  split; [exact (build_NoDup scores_rows [] lookup (NoDup_nil _) Hb)|].
  split; [exact Hnd|]. split; [exact Hin|]. split.
  - intros s1 s2 sub Hne H1 H2. split.
    + apply NoDup_count_occ'; [exact Hnd|].
      apply Hin. eapply get_In_values, H1.
    + intros pre r post s v -> Hs Hor Hcg Hpost.
      eapply grade_rows_last_writer;
        [exact Hs| |exact Hcg|exact Hpost|exact Hq].
      destruct Hor as [->| ->]; assumption.
  - intros pre r post c1 c2 -> H1 H2 Hn1 Hn2 Hlater.
    eapply build_last_writer; eassumption.
Qed.

(** ** Which questions get a file *)

Lemma compute_grades_in_range r cols v :
  compute_grades r cols = Ok (Some v) -> in_range v.
Proof.
  intros Hcg. rewrite (compute_grades_Some r cols v Hcg).
  apply Forall_forall. intros g Hin. apply in_map_iff in Hin as (col & <- & _).
  apply grade_of_range.
Qed.

Lemma question_grades_in_range l cols rows g :
  question_grades l cols rows = Ok g ->
  forall k v, In (k, v) g -> in_range v.
Proof.
  intros Hq.
  refine (grade_rows_values in_range l cols _ rows _ g _ Hq).
  - intros r v. apply compute_grades_in_range.
  - intros k v Hin. rewrite (default_grades_In _ _ k v Hin).
    apply Forall_forall. intros x Hx. apply repeat_spec in Hx. lia.
Qed.

Lemma question_grades_NoDup l cols rows g :
  question_grades l cols rows = Ok g -> NoDup (Dict.keys g).
Proof.
  intros Hq. rewrite (question_grades_keys l cols rows g Hq).
  apply default_grades_keys.
Qed.

Lemma any_positive_nonzero l cols rows g :
  question_grades l cols rows = Ok g ->
  (any_positive g = true <-> has_nonzero g).
Proof.
  intros Hq. unfold any_positive, has_nonzero. rewrite existsb_exists. split.
  - intros (arr & Hin & Hex). apply existsb_exists in Hex as (x & Hx & Hpos).
    apply in_map_iff in Hin as ([sub arr'] & Heq & Hin). simpl in Heq. subst.
    exists sub, arr, x. split; [|split; [exact Hx|]].
    + apply In_get_NoDup; [|exact Hin]. eapply question_grades_NoDup, Hq.
    + apply Z.ltb_lt in Hpos. lia.
  - intros (sub & arr & x & Hg & Hx & Hne). apply get_Some_In in Hg.
    exists arr. split.
    + change arr with (snd (sub, arr)). now apply in_map.
    + apply existsb_exists. exists x. split; [exact Hx|].
      pose proof (question_grades_in_range l cols rows g Hq sub arr Hg) as Hr.
      apply (proj1 (Forall_forall _ _) Hr) in Hx. apply Z.ltb_lt. lia.
Qed.

Section Emit.
Variable e : env.
Variable folder_name : string.
Variable questions : Dict.t Z (list string).
Variable lookup : Dict.t string string.
Variable rows : list row.

Lemma emit_question_Ok q w w1 :
  emit_question e folder_name questions lookup rows q w = (Ok tt, w1) ->
  exists cols g,
    Dict.get q questions = Some cols
    /\ question_grades lookup cols rows = Ok g
    /\ forall q', file_written w1 q'
                  <-> file_written w q' \/ (q' = q /\ any_positive g = true).
Proof.
  unfold emit_question, ibind, lift, getitem.
  destruct (Dict.get q questions) as [cols|] eqn:Hq; [|discriminate].
  destruct (question_grades lookup cols rows) as [g|] eqn:Hg; [|discriminate].
  intros Hrun. exists cols, g. split; [reflexivity|]. split; [exact Hg|].
  destruct (any_positive g); cbn [negb] in Hrun.
  - destruct (open_write_ok e folder_name q); [|discriminate].
    unfold write_file, print in Hrun. injection Hrun as <-.
    intros q'. unfold file_written. simpl. split.
    + intros (f & Hin & Hf). apply in_app_iff in Hin as [Hin|[<-|[]]].
      * left. eauto.
      * right. now split.
    + intros [(f & Hin & Hf)|[-> _]].
      * exists f. split; [apply in_app_iff; now left|exact Hf].
      * eexists. split; [apply in_app_iff; right; now left|reflexivity].
  - injection Hrun as <-. intros q'. unfold file_written. simpl.
    split; [tauto|]. intros [Hf|[_ Hd]]; [exact Hf|discriminate].
Qed.

Lemma for_each_emit_Ok ql :
  forall w w',
    for_each (emit_question e folder_name questions lookup rows) ql w
  = (Ok tt, w') ->
    forall q cols,
      Dict.get q questions = Some cols ->
      exists g,
        (In q ql -> question_grades lookup cols rows = Ok g)
        /\ (file_written w' q
            <-> file_written w q \/ (In q ql /\ any_positive g = true)).
Proof.
  induction ql as [|q0 rest IH]; intros w w' Hrun q cols Hq.
  - injection Hrun as <-. exists []. split; [intros []|]. simpl. tauto.
  - simpl in Hrun. unfold ibind in Hrun.
    destruct (emit_question e folder_name questions lookup rows q0 w)
    as [[[]|] w1] eqn:Hb; [|discriminate].
    destruct (emit_question_Ok q0 w w1 Hb) as (cols0 & g0 & Hq0 & Hg0 & Hw1).
    destruct (IH w1 w' Hrun q cols Hq) as (g & Hg & Hw').
    destruct (Z.eq_dec q q0) as [->|Hne].
    + rewrite Hq in Hq0. injection Hq0 as <-.
      exists g0. split; [intros _; exact Hg0|].
      rewrite Hw', Hw1. split.
      * intros [[Hf|[_ Hp]]|[Hin Hp]]; [tauto|right; split; [now left|exact Hp]|].
        right. split; [now left|]. rewrite (Hg Hin) in Hg0.
        now injection Hg0 as <-.
      * intros [Hf|[_ Hp]]; [tauto|]. left. right. now split.
    + exists g. split; [intros [Heq|Hin]; [congruence|auto]|].
      rewrite Hw', Hw1. split.
      * intros [[Hf|[Heq _]]|[Hin Hp]]; [tauto|contradiction|].
        right. split; [now right|exact Hp].
      * intros [Hf|[[Heq|Hin] Hp]]; [tauto|congruence|tauto].
Qed.
End Emit.

(** ** main *)

Lemma insert_In x y l : In y (insert x l) <-> y = x \/ In y l.
Proof.
  induction l as [|z l IH]; simpl.
  - intuition.
  - destruct (x <=? z); simpl; [intuition|]. rewrite IH. intuition.
Qed.

Lemma sorted_In y l : In y (sorted l) <-> In y l.
Proof.
  induction l as [|x l IH]; simpl; [tauto|].
  rewrite insert_In, IH. intuition.
Qed.

(** A run of [main] that returns went through every step. *)
Lemma main_Ok_inv e prog args w :
  main e prog args empty_world = (Ok tt, w) ->
  exists a1 a2 reply scores lookup metadata headers questions,
    args = [a1; a2]
    /\ stdin_line e = Some reply
    /\ makedirs_ok e (strip reply) = true
    /\ open_read e a1 = Some scores
    /\ build_sid_to_submission (csv_rows scores) [] = Ok lookup
    /\ open_read e a2 = Some metadata
    /\ fieldnames metadata = Some headers
    /\ parse_questions headers = Ok questions
    /\ for_each (emit_question e (strip reply) questions lookup
                               (csv_rows metadata))
                (sorted (Dict.keys questions))
                {| stdout := [Prompt;
                              Found (List.length questions)
                                    (sorted (Dict.keys questions))];
                   disk := [] |}
       = (Ok tt, w).
Proof.
  unfold main.
  destruct args as [|a1 [|a2 [|a3 args]]]; try discriminate.
  cbn [List.length Nat.eqb negb nth]. unfold ibind, print, lift, iret, raise.
  cbn [stdout disk empty_world app].
  destruct (stdin_line e) as [reply|] eqn:Hin; [|discriminate].
  destruct (makedirs_ok e (strip reply)) eqn:Hmk; [|discriminate].
  destruct (open_read e a1) as [scores|] eqn:Hs; [|discriminate].
  destruct (build_sid_to_submission (csv_rows scores) []) as [lookup|] eqn:Hb;
    [|discriminate].
  destruct (open_read e a2) as [metadata|] eqn:Hm; [|discriminate].
  destruct (fieldnames metadata) as [headers|] eqn:Hh; [|discriminate].
  destruct (parse_questions headers) as [questions|] eqn:Hp; [|discriminate].
  intros Hrun.
  exists a1, a2, reply, scores, lookup, metadata, headers, questions.
  repeat split; solve [assumption | exact Hrun].
Qed.

(** C3.  When [main] returns, a file is written for a question found in
    the headers if and only if some vector of the question's grade mapping
    has an entry that is not zero; a question whose vectors are all zero
    gets no file. *)
Theorem file_written_iff_nonzero
    (e : env) (prog : string) (args : list string) (w : world) :
  main e prog args empty_world = (Ok tt, w) ->
  exists a1 a2 scores metadata headers lookup questions,
    args = [a1; a2]
    /\ open_read e a1 = Some scores
    /\ open_read e a2 = Some metadata
    /\ fieldnames metadata = Some headers
    /\ build_sid_to_submission (csv_rows scores) [] = Ok lookup
    /\ parse_questions headers = Ok questions
    /\ forall q cols,
         Dict.get q questions = Some cols ->
         exists grades,
           question_grades lookup cols (csv_rows metadata) = Ok grades
           /\ (file_written w q <-> has_nonzero grades).
Proof.
  intros Hmain.
  destruct (main_Ok_inv e prog args w Hmain)
    as (a1 & a2 & reply & scores & lookup & metadata & headers & questions
        & Hargs & _ & _ & Hs & Hb & Hm & Hh & Hp & Hloop).
  exists a1, a2, scores, metadata, headers, lookup, questions.
  repeat (split; [assumption|]).
  intros q cols Hq.
  destruct (for_each_emit_Ok e (strip reply) questions lookup
              (csv_rows metadata) _ _ w Hloop q cols Hq) as (g & Hg & Hw).
  assert (In q (sorted (Dict.keys questions))) as Hin
    by (apply sorted_In; eapply get_Some_keys, Hq).
  exists g. split; [exact (Hg Hin)|].
  rewrite Hw, (any_positive_nonzero lookup cols _ g (Hg Hin)).
  unfold file_written. simpl. split.
  - intros [(f & [] & _)|[_ Hn]]. exact Hn.
  - intros Hn. right. now split.
Qed.

(** ** The exit status *)














(** ** Examples *)

Example int_examples :
  map int ["3"; "0"; "-0"; "+4"; "007"; "1_0"; "5"; "-1"; ""; "3.0"; "_3"; "3_"; "1__0"; "x"; "+"]
  = [Some 3; Some 0; Some 0; Some 4; Some 7; Some 10; Some 5; Some (-1);
     None; None; None; None; None; None; None].
Proof. reflexivity. Qed.

Example pattern_examples :
  map pattern_match
      ["Question 1 Response"; "Question 12.3 Response"; "Question 1. Response";
       "Question  Response"; "Question 1.2 Response "; "Student ID";
       "Question 07.1 Response"; "question 1 Response"; "Question 1.2.3 Response"]
  = [Some "1"; Some "12"; None; None; None; None; Some "07"; None; None].
Proof. reflexivity. Qed.

Example strip_examples :
  map strip [" 3 "; ""; "   "; "a b"; " a b  "] = ["3"; ""; ""; "a b"; "a b"].
Proof. reflexivity. Qed.

Example spec_example_1 :
  run (ex_env "3" "") "generate.py" ["scores.csv"; "meta.csv"]
  = (0, {| stdout := [Prompt; Found 1 [1]; Wrote 1 1 2];
           disk := [{| js_folder := "out"; js_q_num := 1;
                       js_grades := [("sub1", [3; 0])];
                       js_num_parts := 2 |}] |}).
Proof. reflexivity. Qed.

Example spec_example_2 :
  run (ex_env "5" "") "generate.py" ["scores.csv"; "meta.csv"]
  = (0, {| stdout := [Prompt; Found 1 [1]; Skipped 1]; disk := [] |}).
Proof. reflexivity. Qed.


(** ** Instances *)

Lemma has_columns_q1 a : has_columns (q1_row a) q1_cols.
Proof. intros col [<-|[]]. eexists. reflexivity. Defined.

Lemma has_columns_q2 : has_columns q2_row q2_cols.
Proof. intros col [<-|[<-|[<-|[]]]]; eexists; reflexivity. Defined.

Lemma compute_grades_sentinel_iff_witness :
  has_columns (q1_row "0") q1_cols
  /\ compute_grades (q1_row "0") q1_cols = Ok (Some [0])
  /\ (compute_grades (q1_row "5") q1_cols = Ok None
      <-> forall col c, In col q1_cols ->
                        Dict.get col (q1_row "5") = Some c ->
                        blank_or_invalid c).
Proof.
  split; [apply has_columns_q1|]. split.
  - apply (proj1 (proj2 (compute_grades_sentinel_iff
                           (q1_row "0") q1_cols (has_columns_q1 "0")))).
    + discriminate.
    + intros col [<-|[]]. reflexivity.
  - apply (proj1 (compute_grades_sentinel_iff
                    (q1_row "5") q1_cols (has_columns_q1 "5"))).
Defined.

Lemma subpart_grade_of_cell_witness :
  has_columns q2_row q2_cols
  /\ exists result has_any,
       compute_grades_loop q2_row q2_cols [] false = Ok (result, has_any)
       /\ List.length result = 3%nat
       /\ nth_error result 0 = Some 0
       /\ nth_error result 2 = Some 3.
Proof.
  split; [apply has_columns_q2|].
  destruct (subpart_grade_of_cell q2_row q2_cols has_columns_q2)
    as (result & has_any & Hloop & _ & Hlen & Hcell).
  exists result, has_any. split; [exact Hloop|]. split; [exact Hlen|]. split.
  - refine (proj1 (proj2 (Hcell 0%nat "Question 2.1 Response" (Some "7")
                            eq_refl eq_refl)) _).
    intros (v & Hv & Hr). cbv in Hv. injection Hv as <-. lia.
  - refine (proj1 (Hcell 2%nat "Question 2.3 Response" (Some " 3 ")
                     eq_refl eq_refl) 3 eq_refl _).
    lia.
Defined.

Lemma compute_grades_total_witness :
  has_columns q2_row q2_cols
  /\ exists result has_any,
       compute_grades_loop q2_row q2_cols [] false = Ok (result, has_any)
       /\ compute_grades q2_row q2_cols
          = Ok (if has_any then Some result else None)
       /\ nth_error result 1 = Some 0
       /\ nth_error result 2 = Some 3.
Proof.
  split; [apply has_columns_q2|].
  destruct (compute_grades_total q2_row q2_cols has_columns_q2)
    as (result & has_any & Hloop & Hcg & Hcell & _).
  exists result, has_any. split; [exact Hloop|]. split; [exact Hcg|]. split.
  - exact (proj1 (Hcell 1%nat "Question 2.2 Response" eq_refl) eq_refl).
  - refine (proj2 (proj2 (Hcell 2%nat "Question 2.3 Response" eq_refl))
              " " "3" " " 3 eq_refl eq_refl eq_refl eq_refl _).
    lia.
Defined.

Lemma invalid_row_keeps_entry_witness :
  Dict.get "Student ID" (q1_row "5") = Some (Some "s1")
  /\ has_columns (q1_row "5") q1_cols
  /\ grade_row s1_lookup q1_cols [("sub1", [0])] (q1_row "5")
     = Ok [("sub1", [0])].
Proof.
  split; [reflexivity|]. split; [apply has_columns_q1|].
  apply (invalid_row_keeps_entry s1_lookup q1_cols [("sub1", [0])]
           (q1_row "5") "s1" eq_refl (has_columns_q1 "5")).
  intros col c [<-|[]] [= <-]. right. right. exists 5.
  split; [reflexivity|lia].
Defined.

Lemma grade_vector_length_witness :
  question_grades s1_lookup q2_cols [q2_row] = Ok [("sub1", [0; 0; 3])]
  /\ forall sub v, Dict.get sub [("sub1", [0; 0; 3])] = Some v ->
                   List.length v = List.length q2_cols.
Proof.
  split; [reflexivity|].
  exact (proj1 (grade_vector_length s1_lookup q2_cols [q2_row]
                  [("sub1", [0; 0; 3])] eq_refl)).
Defined.

Lemma last_graded_row_wins_witness :
  compute_grades (q1_row "3") q1_cols = Ok (Some [3])
  /\ compute_grades (q1_row "") q1_cols = Ok None
  /\ question_grades s1_lookup q1_cols ([] ++ q1_row "3" :: [q1_row ""])
     = Ok [("sub1", [3])]
  /\ Dict.get "sub1" [("sub1", [3])] = Some [3].
Proof.
  split; [reflexivity|]. split; [reflexivity|]. split; [reflexivity|].
  apply (last_graded_row_wins s1_lookup q1_cols [] [q1_row ""] (q1_row "3")
           "s1" "sub1" [3] [("sub1", [3])] eq_refl eq_refl eq_refl);
    [|reflexivity].
  intros r' s' [<-|[]] _ _. reflexivity.
Defined.

Lemma file_written_iff_nonzero_witness :
  main (ex_env "3" "") "generate.py" ["scores.csv"; "meta.csv"] empty_world
  = (Ok tt, ex_world)
  /\ exists a1 a2 scores metadata headers lookup questions,
       ["scores.csv"; "meta.csv"] = [a1; a2]
       /\ open_read (ex_env "3" "") a1 = Some scores
       /\ open_read (ex_env "3" "") a2 = Some metadata
       /\ fieldnames metadata = Some headers
       /\ build_sid_to_submission (csv_rows scores) [] = Ok lookup
       /\ parse_questions headers = Ok questions
       /\ forall q cols,
            Dict.get q questions = Some cols ->
            exists grades,
              question_grades lookup cols (csv_rows metadata) = Ok grades
              /\ (file_written ex_world q <-> has_nonzero grades).
Proof.
  split; [reflexivity|].
  exact (file_written_iff_nonzero (ex_env "3" "") "generate.py"
           ["scores.csv"; "meta.csv"] ex_world eq_refl).
Defined.

Lemma shared_submission_entry_witness :
  build_sid_to_submission shared_scores [] = Ok shared_lookup
  /\ question_grades shared_lookup q1_cols shared_rows = Ok [("sub1", [2])]
  /\ count_occ string_dec (Dict.keys [("sub1", [2])]) "sub1" = 1%nat
  /\ Dict.get "sub1" [("sub1", [2])] = Some [2]
  /\ Dict.get "s1" shared_lookup = Some "sub1".
Proof.
  split; [reflexivity|]. split; [reflexivity|].
  destruct (shared_submission_entry shared_scores shared_lookup q1_cols
              shared_rows [("sub1", [2])] eq_refl eq_refl)
    as (_ & _ & _ & Hshared & Hscores).
  destruct (Hshared "s1" "s2" "sub1") as [Hone Hlast];
    [discriminate|reflexivity|reflexivity|].
  split; [exact Hone|]. split.
  - apply (Hlast [row_of "s1" "3"] (row_of "s2" "2") [row_of "s1" ""] "s2" [2]
             eq_refl eq_refl (or_intror eq_refl) eq_refl).
    intros r' [<-|[]] s _ _. reflexivity.
  - apply (Hscores [nth 0 shared_scores []; nth 1 shared_scores []]
             (nth 2 shared_scores []) [] (Some " s1") (Some "sub1 ")
             eq_refl eq_refl eq_refl).
    + discriminate.
    + discriminate.
    + intros r' c1' c2' [].
Defined.

(** * Further properties *)

(** ** The header pattern *)

Lemma literal_app p r : literal p (p ++ r)%string = Some r.
Proof.
  induction p as [|a p IH]; simpl; [reflexivity|].
  now rewrite Ascii.eqb_refl.
Qed.

Lemma literal_Some p : forall s r, literal p s = Some r -> s = (p ++ r)%string.
Proof.
  induction p as [|a p IH]; intros s r; simpl.
  - now intros [= ->].
  - destruct s as [|b s]; [discriminate|].
    destruct (Ascii.eqb_spec a b) as [->|_]; [|discriminate].
    intros Hl. now rewrite (IH s r Hl).
Qed.

Lemma digits_split s : forall d r,
  digits s = (d, r) -> s = (d ++ r)%string /\ all_chars is_digit d = true.
Proof.
  induction s as [|c s IH]; intros d r; simpl.
  - intros [= <- <-]. now split.
  - destruct (is_digit c) eqn:Hc.
    + destruct (digits s) as [d' r'] eqn:Hd. intros [= <- <-].
      destruct (IH d' r' eq_refl) as [-> Hall]. simpl. now rewrite Hc.
    + intros [= <- <-]. now split.
Qed.

Lemma digits_app d r :
  all_chars is_digit d = true -> no_digit_first r ->
  digits (d ++ r)%string = (d, r).
Proof.
  intros Hd Hr. induction d as [|c d IH]; simpl.
  - destruct r as [|a r]; [reflexivity|]. simpl in *. now rewrite Hr.
  - simpl in Hd. apply andb_true_iff in Hd as [Hc Hd].
    now rewrite Hc, (IH Hd).
Qed.

Lemma digits1_app d r :
  digit_string d -> no_digit_first r -> digits1 (d ++ r)%string = Some (d, r).
Proof.
  intros [Hne Hd] Hr. unfold digits1. rewrite (digits_app d r Hd Hr).
  destruct d; [contradiction|reflexivity].
Qed.

Lemma digits1_Some s d r :
  digits1 s = Some (d, r) -> s = (d ++ r)%string /\ digit_string d.
Proof.
  unfold digits1. destruct (digits s) as [d' r'] eqn:Hd.
  destruct (digits_split s d' r' Hd) as [-> Hall].
  destruct d' as [|c d']; [discriminate|]. intros [= <- <-].
  split; [reflexivity|]. split; [discriminate|exact Hall].
Qed.

Lemma at_end_true s : at_end s = true -> s = "" \/ s = String "010" "".
Proof.
  destruct s as [|c [|c' s]]; simpl; try discriminate; [now left|].
  destruct (Ascii.eqb_spec c "010") as [->|_]; [now right|discriminate].
Qed.

Lemma pattern_match_unfold h :
  pattern_match h
  = match literal "Question " h with
    | None => None
    | Some r1 =>
        match digits1 r1 with
        | None => None
        | Some (g1, r2) =>
            match (match r2 with
                   | String c r3 =>
                       if Ascii.eqb c "." then option_map snd (digits1 r3)
                       else Some r2
                   | EmptyString => Some r2
                   end) with
            | None => None
            | Some r5 =>
                match literal " Response" r5 with
                | Some r6 => if at_end r6 then Some g1 else None
                | None => None
                end
            end
        end
    end.
Proof.
  unfold pattern_match.
  destruct (literal "Question " h) as [r1|]; [|reflexivity].
  destruct (digits1 r1) as [[g1 r2]|]; [|reflexivity].
  destruct r2 as [|c r3]; [reflexivity|].
  destruct c as [[] [] [] [] [] [] [] []]; try reflexivity.
  cbn [Ascii.eqb Bool.eqb]. destruct (digits1 r3) as [[g2 r4]|]; reflexivity.
Qed.

Lemma header_shape_match h g1 : header_shape h g1 -> pattern_match h = Some g1.
Proof.
  intros (Hg1 & sub & nl & Hsub & Hnl & ->).
  rewrite pattern_match_unfold, literal_app.
  assert (at_end nl = true) as Hend by (destruct Hnl as [->| ->]; reflexivity).
  destruct Hsub as [->|(g2 & Hg2 & ->)].
  - rewrite (digits1_app g1 _ Hg1); [|reflexivity].
    simpl. now rewrite Hend.
  - rewrite (digits1_app g1 _ Hg1); [|reflexivity].
    cbn [append]. rewrite Ascii.eqb_refl.
    rewrite (digits1_app g2 _ Hg2); [|reflexivity].
    simpl. now rewrite Hend.
Qed.

Lemma match_header_shape h g1 : pattern_match h = Some g1 -> header_shape h g1.
Proof.
  rewrite pattern_match_unfold.
  destruct (literal "Question " h) as [r1|] eqn:H1; [|discriminate].
  apply literal_Some in H1. subst h.
  destruct (digits1 r1) as [[d r2]|] eqn:H2; [|discriminate].
  apply digits1_Some in H2 as [-> Hd].
  destruct r2 as [|c r3].
  - simpl. discriminate.
  - destruct (Ascii.eqb_spec c ".") as [->|Hc].
    + destruct (digits1 r3) as [[g2 r4]|] eqn:H3; [|discriminate].
      apply digits1_Some in H3 as [-> Hg2]. cbn [option_map snd].
      destruct (literal " Response" r4) as [r6|] eqn:H4; [|discriminate].
      apply literal_Some in H4. subst r4.
      destruct (at_end r6) eqn:H5; [|discriminate]. intros [= <-].
      split; [exact Hd|]. exists (String "." g2), r6.
      split; [right; eauto|]. split; [now apply at_end_true|].
      simpl. reflexivity.
    + destruct (literal " Response" (String c r3)) as [r6|] eqn:H4;
        [|discriminate].
      apply literal_Some in H4. rewrite H4.
      destruct (at_end r6) eqn:H5; [|discriminate]. intros [= <-].
      split; [exact Hd|]. exists "", r6.
      split; [now left|]. split; [now apply at_end_true|reflexivity].
Qed.

(** X1. [pattern.match(h)] succeeds with group 1 equal to [g1] exactly on
    the strings "Question ", digits [g1], optionally a dot and digits,
    " Response", optionally one final line feed. *)
Theorem pattern_match_shape (h g1 : string) :
  pattern_match h = Some g1 <-> header_shape h g1.
Proof.
  split; [apply match_header_shape|apply header_shape_match].
Qed.

(** ** The question number of a header *)

Lemma digit_not_underscore c : is_digit c = true -> Ascii.eqb c "_" = false.
Proof.
  destruct c as [[] [] [] [] [] [] [] []]; try discriminate; reflexivity.
Qed.

Lemma int_digits_all_digit s :
  all_chars is_digit s = true ->
  forall acc, exists n, int_digits false acc s = Some n.
Proof.
  induction s as [|c s IH]; simpl; intros Hall acc.
  - eauto.
  - apply andb_true_iff in Hall as [Hc Hs]. rewrite Hc. apply IH, Hs.
Qed.

(** [int] on a string of digits: the limit, then the digits. *)
Lemma int_digit_string g :
  digit_string g ->
  int g = if (count_digits g <=? int_max_str_digits)%N
          then int_digits false 0 g else None.
Proof.
  intros [Hne Hd]. destruct g as [|c g]; [contradiction|].
  simpl in Hd. apply andb_true_iff in Hd as [Hc _].
  rewrite (int_of_digit_first c g Hc). unfold int_unsigned.
  now rewrite (digit_not_underscore c Hc).
Qed.

Lemma int_within g :
  digit_string g -> within_limit g -> exists n, int g = Some n.
Proof.
  intros Hg Hw. rewrite (int_digit_string g Hg).
  apply N.leb_le in Hw. rewrite Hw.
  apply int_digits_all_digit, Hg.
Qed.

Lemma int_over g : digit_string g -> ~ within_limit g -> int g = None.
Proof.
  intros Hg Hw. rewrite (int_digit_string g Hg).
  destruct (N.leb_spec (count_digits g) int_max_str_digits) as [Hle|_];
    [contradiction|reflexivity].
Qed.

(** The accumulator of [int_digits] and the one of the Standard Library's
    reader of decimal numerals go the same way. *)
Lemma int_digits_decimal s :
  forall acc d,
    NilEmpty.uint_of_string s = Some d -> 0 <= acc ->
    int_digits false acc s
    = Some (Z.of_nat (Nat.of_uint_acc d (Z.to_nat acc))).
Proof.
  induction s as [|c s IH]; intros acc d; simpl NilEmpty.uint_of_string.
  - intros [= <-] Ha. simpl. f_equal. lia.
  - destruct (NilEmpty.uint_of_string s) as [d'|]; [|discriminate].
    intros Hc Ha.
    assert (forall k : Z,
              is_digit c = true -> digit_value c = k -> 0 <= k ->
              forall n : nat,
                n = Z.to_nat (acc * 10 + k) ->
                int_digits false acc (String c s)
                = Some (Z.of_nat (Nat.of_uint_acc d' n))) as Hstep.
    { intros k Hd Hk Hk0 n ->. cbn [int_digits]. rewrite Hd, Hk.
      apply IH; [reflexivity|lia]. }
    apply uint_of_char_spec in Hc.
    destruct Hc as [[-> ->]|[[-> ->]|[[-> ->]|[[-> ->]|[[-> ->]|[[-> ->]|
                   [[-> ->]|[[-> ->]|[[-> ->]|[-> ->]]]]]]]]]];
      cbn [Nat.of_uint_acc]; rewrite Nat.tail_mul_spec;
      [apply (Hstep 0)|apply (Hstep 1)|apply (Hstep 2)|apply (Hstep 3)
      |apply (Hstep 4)|apply (Hstep 5)|apply (Hstep 6)|apply (Hstep 7)
      |apply (Hstep 8)|apply (Hstep 9)]; try reflexivity; lia.
Qed.

Lemma uint_of_digits s :
  all_chars is_digit s = true -> exists d, NilEmpty.uint_of_string s = Some d.
Proof.
  induction s as [|c s IH]; simpl; [eauto|].
  intros Hall. apply andb_true_iff in Hall as [Hc Hs].
  destruct (IH Hs) as [d ->]. revert Hc.
  destruct c as [[] [] [] [] [] [] [] []]; try discriminate; simpl; eauto.
Qed.

(** On a string of digits within the limit, [int] gives the number that
    the string denotes. *)
Lemma int_decimal g :
  digit_string g -> within_limit g -> int g = decimal_value g.
Proof.
  intros Hg Hw. rewrite (int_digit_string g Hg).
  apply N.leb_le in Hw. rewrite Hw. unfold decimal_value.
  destruct (uint_of_digits g (proj2 Hg)) as [d Hd]. rewrite Hd.
  rewrite (int_digits_decimal g 0 d Hd); [reflexivity|lia].
Qed.

Lemma has_question_spec N h :
  (forall g1, header_shape h g1 -> within_limit g1) ->
  (has_question N h = true <-> header_of_question N h).
Proof.
  intros Hlim. unfold has_question, header_question, header_of_question.
  split.
  - destruct (pattern_match h) as [g1|] eqn:Hm; [|discriminate].
    apply match_header_shape in Hm.
    destruct (int g1) as [n|] eqn:Hi; [|discriminate].
    intros Hq. apply Z.eqb_eq in Hq. subst n.
    exists g1. split; [exact Hm|].
    now rewrite <- (int_decimal g1 (proj1 Hm) (Hlim g1 Hm)).
  - intros (g1 & Hs & Hv).
    rewrite (header_shape_match h g1 Hs),
            (int_decimal g1 (proj1 Hs) (Hlim g1 Hs)), Hv.
    apply Z.eqb_refl.
Qed.

(** ** parse_questions and the limit of [int] *)

Lemma parse_questions_loop_total headers :
  (forall h g1, In h headers -> pattern_match h = Some g1 -> within_limit g1) ->
  forall qs, exists qs', parse_questions_loop headers qs = Ok qs'.
Proof.
  induction headers as [|h rest IH]; intros Hlim qs; simpl; [eauto|].
  assert (forall h' g1, In h' rest -> pattern_match h' = Some g1 ->
                        within_limit g1) as Hrest
    by (intros h' g1 Hin; apply Hlim; now right).
  destruct (pattern_match h) as [g1|] eqn:Hm; [|now apply IH].
  destruct (int_within g1 (proj1 (match_header_shape h g1 Hm))
              (Hlim h g1 (or_introl eq_refl) Hm)) as [n ->].
  now apply IH.
Qed.

Lemma parse_questions_loop_Ok_int headers :
  forall qs qs',
    parse_questions_loop headers qs = Ok qs' ->
    forall h g1, In h headers -> pattern_match h = Some g1 ->
                 exists n, int g1 = Some n.
Proof.
  induction headers as [|h rest IH]; intros qs qs'; simpl.
  - intros _ h g1 [].
  - destruct (pattern_match h) as [g|] eqn:Hm.
    + destruct (int g) as [n|] eqn:Hi; [|discriminate].
      intros Hloop h' g1 [<-|Hin] Hm'.
      * rewrite Hm in Hm'. injection Hm' as <-. eauto.
      * eapply IH; eassumption.
    + intros Hloop h' g1 [<-|Hin] Hm'; [congruence|].
      eapply IH; eassumption.
Qed.

Lemma parse_questions_loop_Raise headers :
  forall qs e, parse_questions_loop headers qs = Raise e -> e = ValueError.
Proof.
  induction headers as [|h rest IH]; intros qs e; simpl; [discriminate|].
  destruct (pattern_match h) as [g|]; [|apply IH].
  destruct (int g); [apply IH|now intros [= <-]].
Qed.

(** C6, as stated, fails: a header that matches the pattern with a
    question number of 4301 digits makes [int] raise [ValueError], and
    [parse_questions] returns no mapping. *)
Lemma long_question_number_raises :
  pattern_match long_header = Some long_digits
  /\ count_digits long_digits = 4301%N
  /\ parse_questions ["Student ID"; long_header] = Raise ValueError.
Proof. repeat split; vm_compute; reflexivity. Qed.

(** C6, amended.  For a list of headers in which no question number has
    more digits than [int] converts, [parse_questions] returns a
    dictionary with one key per question number; the value at [N] is the
    list of the headers that match the pattern with leading integer [N], in
    their order of appearance, a number without such a header is not a key,
    and a header that does not match is in no group.  With a longer
    question number in the list, [parse_questions] raises [ValueError]. *)
Theorem parse_questions_groups (headers : list string) :
  ((forall h g1, In h headers -> header_shape h g1 -> within_limit g1) ->
   exists questions,
     parse_questions headers = Ok questions
     /\ NoDup (Dict.keys questions)
     /\ (forall N (p : string -> bool),
           (forall h, In h headers ->
                      (p h = true <-> header_of_question N h)) ->
           Dict.get N questions
           = match filter p headers with
             | [] => None
             | g => Some g
             end)
     /\ (forall h N g, (forall g1, ~ header_shape h g1) ->
                       Dict.get N questions = Some g -> ~ In h g))
  /\ ((exists h g1, In h headers /\ header_shape h g1 /\ ~ within_limit g1) ->
      parse_questions headers = Raise ValueError).
Proof.
  split.
  - intros Hlim.
    destruct (parse_questions_loop_total headers) with (qs := @nil (Z * list string))
      as [questions Hp].
    { intros h g1 Hin Hm. apply (Hlim h g1 Hin).
      now apply match_header_shape. }
    fold (parse_questions headers) in Hp.
    destruct (parse_questions_spec headers questions Hp) as [Hnd Hget].
    exists questions. split; [exact Hp|]. split; [exact Hnd|]. split.
    + intros N p Hp'. rewrite Hget. unfold matching.
      rewrite (filter_ext_in p (has_question N) headers); [reflexivity|].
      intros h Hin.
      pose proof (has_question_spec N h (fun g1 => Hlim h g1 Hin)) as Hspec.
      pose proof (Hp' h Hin) as Hph.
      destruct (p h), (has_question N h); try reflexivity.
      * pose proof (proj2 Hspec (proj1 Hph eq_refl)). discriminate.
      * pose proof (proj2 Hph (proj1 Hspec eq_refl)). discriminate.
    + intros h N g Hno Hg Hin. rewrite Hget in Hg.
      assert (In h (matching N headers)) as Hf.
      { destruct (matching N headers); [discriminate|].
        now injection Hg as <-. }
      apply filter_In in Hf as [_ Hq].
      unfold has_question, header_question in Hq.
      destruct (pattern_match h) as [g1|] eqn:Hm; [|discriminate].
      exact (Hno g1 (match_header_shape h g1 Hm)).
  - intros (h & g1 & Hin & Hs & Hover). unfold parse_questions.
    destruct (parse_questions_loop headers []) as [questions|e] eqn:Hloop.
    + destruct (parse_questions_loop_Ok_int headers _ _ Hloop h g1 Hin
                  (header_shape_match h g1 Hs)) as [n Hn].
      rewrite (int_over g1 (proj1 Hs) Hover) in Hn. discriminate.
    + now rewrite (parse_questions_loop_Raise headers _ e Hloop).
Qed.

Lemma int_leading_zero g :
  digit_string g -> (count_digits g < int_max_str_digits)%N ->
  int (String "0" g) = int g /\ exists n, int g = Some n.
Proof.
  intros Hg Hlt.
  assert (digit_string (String "0" g)) as Hz
    by (split; [discriminate|simpl; apply Hg]).
  assert (within_limit g) as Hw by (unfold within_limit; lia).
  assert (within_limit (String "0" g)) as Hwz
    by (unfold within_limit;
        change (count_digits (String "0" g)) with (N.succ (count_digits g));
        lia).
  split; [|now apply int_within].
  rewrite (int_decimal _ Hz Hwz), (int_decimal g Hg Hw).
  unfold decimal_value. simpl NilEmpty.uint_of_string.
  destruct (NilEmpty.uint_of_string g); reflexivity.
Qed.

(** X2. Leading zeros do not separate questions: when a header matches
    with question digits [g1], fewer of them than the limit of [int], the
    header with a zero put before these digits matches too and has the
    same question number. *)
Theorem leading_zero_same_question (h g1 : string) :
  pattern_match h = Some g1 ->
  (count_digits g1 < int_max_str_digits)%N ->
  exists rest N,
    h = ("Question " ++ g1 ++ rest)%string
    /\ pattern_match ("Question " ++ String "0" g1 ++ rest)%string
       = Some (String "0" g1)
    /\ header_question h = Some N
    /\ header_question ("Question " ++ String "0" g1 ++ rest)%string
       = Some N.
Proof.
  intros Hm Hlt. destruct (match_header_shape h g1 Hm)
    as (Hg1 & sub & nl & Hsub & Hnl & Hh).
  destruct (int_leading_zero g1 Hg1 Hlt) as [Hz0 [N HN]].
  exists (sub ++ " Response" ++ nl)%string, N. split; [exact Hh|].
  assert (pattern_match
            ("Question " ++ String "0" g1 ++ sub ++ " Response" ++ nl)%string
          = Some (String "0" g1)) as Hz.
  { apply header_shape_match. split.
    - split; [discriminate|]. simpl. apply Hg1.
    - exists sub, nl. repeat split; assumption. }
  split; [exact Hz|].
  unfold header_question. rewrite Hz, Hm, Hz0. now split.
Qed.

(** ** compute_grades: the vector and the exception *)

(** X3. A vector returned by [compute_grades] is not empty, has one entry
    per response column, every entry is between 0 and 4 (so the rubric
    index [4 - grade] of the template is between 0 and 4), and some cell of
    the row holds a valid grade. *)
Theorem compute_grades_vector (r : row) (cols : list string) (v : list Z) :
  compute_grades r cols = Ok (Some v) ->
  v <> []
  /\ List.length v = List.length cols
  /\ Forall (fun g => 0 <= g <= 4 /\ 0 <= 4 - g <= 4) v
  /\ exists col c, In col cols /\ Dict.get col r = Some c /\ valid_cell c.
Proof.
  intros Hcg.
  pose proof (compute_grades_Ok_has_columns r cols _ Hcg) as Hc.
  pose proof (compute_grades_Some r cols v Hcg) as ->.
  rewrite (compute_grades_spec r cols Hc) in Hcg.
  destruct (existsb (flag_at r) cols) eqn:He; [|discriminate].
  apply existsb_exists in He as (col & Hin & Hf).
  destruct (Hc col Hin) as [c Hg].
  rewrite (flag_at_get r col c Hg) in Hf. apply grade_of_snd_valid in Hf.
  repeat split.
  - destruct cols; [destruct Hin|discriminate].
  - apply length_map.
  - apply Forall_forall. intros g Hg'.
    apply in_map_iff in Hg' as (col' & <- & _).
    pose proof (grade_of_range (value_of (cell_of r col'))).
    unfold grade_at. lia.
  - eauto.
Qed.

Lemma compute_grades_loop_Raise r cols :
  forall res h e,
    compute_grades_loop r cols res h = Raise e ->
    e = KeyError /\ exists col, In col cols /\ Dict.get col r = None.
Proof.
  induction cols as [|col rest IH]; intros res h e; simpl; [discriminate|].
  unfold getitem. destruct (Dict.get col r) as [c|] eqn:Hg.
  - cbn [rbind]. intros Hl.
    assert (exists res' h', compute_grades_loop r rest res' h' = Raise e)
      as (res' & h' & Hr).
    { revert Hl.
      destruct (String.eqb (strip (or_empty c)) "");
        [|destruct (int (strip (or_empty c))) as [v|];
          [destruct ((0 <=? v) && (v <=? 4))|]]; eauto. }
    destruct (IH res' h' e Hr) as (-> & col' & Hin & Hn).
    split; [reflexivity|]. exists col'. split; [now right|exact Hn].
  - cbn [rbind]. intros [= <-]. split; [reflexivity|].
    exists col. split; [now left|exact Hg].
Qed.

Lemma compute_grades_Raise r cols e :
  compute_grades r cols = Raise e ->
  e = KeyError /\ exists col, In col cols /\ Dict.get col r = None.
Proof.
  unfold compute_grades.
  destruct (compute_grades_loop r cols [] false) as [[res h]|x] eqn:Hl;
    [discriminate|].
  cbn [rbind]. intros [= <-]. eapply compute_grades_loop_Raise, Hl.
Qed.

(** X4. The only exception of [compute_grades] is [KeyError], raised
    exactly when the row lacks one of the response columns; a cell that is
    not an integer never raises. *)
Theorem compute_grades_KeyError (r : row) (cols : list string) :
  (compute_grades r cols = Raise KeyError
   <-> exists col, In col cols /\ Dict.get col r = None)
  /\ (forall e, compute_grades r cols = Raise e -> e = KeyError).
Proof.
  split; [split|].
  - intros Hr. apply (compute_grades_Raise r cols _ Hr).
  - intros (col & Hin & Hn).
    destruct (compute_grades r cols) as [out|e] eqn:Hcg.
    + destruct (compute_grades_Ok_has_columns r cols out Hcg col Hin)
        as [c Hc]. congruence.
    + now destruct (compute_grades_Raise r cols e Hcg) as [-> _].
  - intros e Hr. apply (compute_grades_Raise r cols e Hr).
Qed.

(** ** The grade mapping of a question *)

Lemma grade_row_skipped l cols g r :
  skipped l r = true -> grade_row l cols g r = Ok g.
Proof.
  unfold skipped, grade_row, getitem, Dict.mem.
  destruct (Dict.get "Student ID" r) as [[s|]|]; try discriminate.
  cbn [rbind]. now destruct (Dict.get (strip s) l).
Qed.

(** X5. The metadata rows of students that are not in the lookup have no
    effect, not even an error for a response column they lack: without
    them the mapping of a question, or the exception, is the same. *)
Theorem skipped_rows_have_no_effect
    (lookup : Dict.t string string) (cols : list string) (rows : list row) :
  question_grades lookup cols (filter (fun r => negb (skipped lookup r)) rows)
  = question_grades lookup cols rows.
Proof.
  unfold question_grades.
  generalize (default_grades lookup (List.length cols)) as g.
  induction rows as [|r rest IH]; intros g; simpl; [reflexivity|].
  destruct (skipped lookup r) eqn:Hs; simpl.
  - rewrite (grade_row_skipped lookup cols g r Hs). cbn [rbind]. apply IH.
  - destruct (grade_row lookup cols g r); cbn [rbind]; [apply IH|reflexivity].
Qed.

Lemma default_grades_get l n sub :
  In sub (Dict.values l) -> Dict.get sub (default_grades l n) = Some (repeat 0 n).
Proof.
  intros Hin. apply (proj2 (default_grades_keys l n)) in Hin.
  apply keys_In_get in Hin as [v Hg]. rewrite Hg. f_equal.
  eapply default_grades_In, get_Some_In, Hg.
Qed.

(** X6. A submission of the lookup that no metadata row grades keeps the
    vector of zeros, of the length of the question, in the final mapping. *)
Theorem ungraded_submission_keeps_zeros
    (lookup : Dict.t string string) (cols : list string) (rows : list row)
    (grades : Dict.t string (list Z)) (sub : string) :
  question_grades lookup cols rows = Ok grades ->
  In sub (Dict.values lookup) ->
  (forall r, In r rows -> leaves_alone lookup cols sub r) ->
  Dict.get sub grades = Some (repeat 0 (List.length cols)).
Proof.
  intros Hq Hin Hrows.
  rewrite (grade_rows_leave_alone lookup cols sub rows _ grades Hrows Hq).
  now apply default_grades_get.
Qed.

(** ** The order of the entries *)

Lemma filter_filter_and {A} (p q : A -> bool) l :
  filter p (filter q l) = filter (fun y => q y && p y) l.
Proof.
  induction l as [|a l IH]; simpl; [reflexivity|].
  destruct (q a); simpl; [destruct (p a)|]; now rewrite IH.
Qed.

Lemma filter_absorb {A} (p q : A -> bool) l :
  (forall z, q z = false -> p z = false) ->
  filter p (filter q l) = filter p l.
Proof.
  intros Hpq. rewrite filter_filter_and. apply filter_ext. intros z.
  destruct (q z) eqn:Hq; [reflexivity|]. simpl. now rewrite (Hpq z Hq).
Qed.

Lemma uniq_filter (p : string -> bool) l :
  uniq (filter p l) = filter p (uniq l).
Proof.
  induction l as [|y l IH]; simpl; [reflexivity|].
  destruct (p y) eqn:Hp; simpl; rewrite ?Hp, IH.
  - f_equal. rewrite !filter_filter_and.
    apply filter_ext. intros z. apply andb_comm.
  - symmetry. apply filter_absorb. intros z Hz.
    apply negb_false_iff, String.eqb_eq in Hz. now subst.
Qed.

Lemma notin_mem (acc : Dict.t string (list Z)) x :
  notin (Dict.keys acc) x = negb (Dict.mem x acc).
Proof.
  unfold notin, Dict.mem. f_equal.
  induction acc as [|[k v] acc IH]; simpl; [reflexivity|].
  destruct (String.eqb x k); simpl; [reflexivity|].
  exact IH.
Qed.

Lemma notin_app K x y :
  notin (K ++ [x]) y = notin K y && negb (String.eqb y x).
Proof.
  unfold notin. rewrite existsb_app. simpl. rewrite orb_false_r.
  apply negb_orb.
Qed.

Lemma fold_set_keys_order (n : nat) vals :
  forall acc : Dict.t string (list Z),
    Dict.keys (fold_left (fun grades sub_id =>
                            Dict.set sub_id (repeat 0 n) grades) vals acc)
    = Dict.keys acc ++ uniq (filter (notin (Dict.keys acc)) vals).
Proof.
  induction vals as [|x vals IH]; intros acc; simpl.
  - now rewrite app_nil_r.
  - rewrite IH, keys_set, notin_mem.
    destruct (Dict.mem x acc) eqn:Hm; simpl; [reflexivity|].
    rewrite <- app_assoc. simpl. do 2 f_equal.
    rewrite <- uniq_filter, filter_filter_and. f_equal.
    apply filter_ext. intros y. apply notin_app.
Qed.

(** X7. The entries of the grade mapping of every question are the
    distinct submission IDs of the lookup, in the order of their first
    occurrence in it, whatever the metadata rows are: processing the rows
    adds, removes and moves no entry. *)
Theorem grade_mapping_order
    (lookup : Dict.t string string) (cols : list string) (rows : list row)
    (grades : Dict.t string (list Z)) :
  question_grades lookup cols rows = Ok grades ->
  Dict.keys grades = uniq (Dict.values lookup)
  /\ List.length grades = List.length (uniq (Dict.values lookup)).
Proof.
  intros Hq.
  assert (Dict.keys grades = uniq (Dict.values lookup)) as Hk.
  { rewrite (question_grades_keys lookup cols rows grades Hq).
    unfold default_grades. rewrite fold_set_keys_order. simpl.
    f_equal. clear. induction (Dict.values lookup) as [|x l IH]; simpl;
      [reflexivity|now rewrite IH]. }
  split; [exact Hk|]. rewrite <- Hk. unfold Dict.keys.
  now rewrite length_map.
Qed.

(** ** The lookup of the scores file *)

Lemma rstrip_cons_nonempty c s a r :
  rstrip s = String a r -> rstrip (String c s) = String c (String a r).
Proof. intros Hr. simpl. now rewrite Hr. Qed.

Lemma rstrip_idem s : rstrip (rstrip s) = rstrip s.
Proof.
  induction s as [|c s IH]; simpl; [reflexivity|].
  destruct (rstrip s) as [|a r] eqn:Hr.
  - destruct (is_space c) eqn:Hc; simpl; [reflexivity|now rewrite Hc].
  - now apply rstrip_cons_nonempty.
Qed.

Lemma lstrip_head s :
  lstrip s = "" \/ exists c t, lstrip s = String c t /\ is_space c = false.
Proof.
  induction s as [|c s IH]; simpl; [now left|].
  destruct (is_space c) eqn:Hc; [exact IH|]. right. eauto.
Qed.

Lemma strip_head s :
  strip s = "" \/ exists c t, strip s = String c t /\ is_space c = false.
Proof.
  unfold strip. destruct (lstrip_head s) as [->|(c & t & -> & Hc)];
    [now left|].
  right. simpl. destruct (rstrip t); rewrite ?Hc; eauto.
Qed.

Lemma strip_idem s : strip (strip s) = strip s.
Proof.
  destruct (strip_head s) as [->|(c & t & Hs & Hc)]; [reflexivity|].
  unfold strip at 1. rewrite Hs. simpl lstrip. rewrite Hc.
  rewrite <- Hs. unfold strip. apply rstrip_idem.
Qed.

Lemma build_entries (all : list row) rows :
  (forall r, In r rows -> In r all) ->
  forall d d',
    build_sid_to_submission rows d = Ok d' ->
    forall Q : string -> string -> Prop,
      (forall (r : row) c1 c2,
          In r all -> Dict.get "SID" r = Some c1 ->
          Dict.get "Submission ID" r = Some c2 ->
          value_of c1 <> "" -> value_of c2 <> "" ->
          Q (value_of c1) (value_of c2)) ->
      (forall k v, In (k, v) d -> Q k v) ->
      forall k v, In (k, v) d' -> Q k v.
Proof.
  induction rows as [|r rest IH]; intros Hall d d'; simpl.
  - intros [= <-] Q _ Hd. exact Hd.
  - unfold getitem.
    destruct (Dict.get "SID" r) as [c1|] eqn:H1; [|discriminate].
    destruct (Dict.get "Submission ID" r) as [c2|] eqn:H2; [|discriminate].
    cbn [rbind]. fold (value_of c1) (value_of c2).
    assert (forall x, In x rest -> In x all) as Hrest
      by (intros x Hx; apply Hall; now right).
    destruct (truthy (value_of c1) && truthy (value_of c2)) eqn:Ht.
    + intros Hb Q HQ Hd. apply (IH Hrest _ d' Hb Q HQ).
      intros k v Hin. apply In_set in Hin as [Hin|[-> ->]]; [auto|].
      apply andb_true_iff in Ht as [Ht1 Ht2].
      apply truthy_true in Ht1, Ht2.
      apply (HQ r c1 c2); auto. apply Hall. now left.
    + intros Hb Q HQ Hd. exact (IH Hrest d d' Hb Q HQ Hd).
Qed.

(** X8. Every entry of the lookup comes from a row of the scores file
    that has both fields: its key is the stripped SID, its value the
    stripped submission ID, and neither is empty nor has white space at an
    end.  So a metadata row with a blank student ID is passed over. *)
Theorem lookup_entries
    (scores_rows : list row) (lookup : Dict.t string string) :
  build_sid_to_submission scores_rows [] = Ok lookup ->
  (forall sid sub,
      In (sid, sub) lookup ->
      sid <> "" /\ sub <> "" /\ strip sid = sid /\ strip sub = sub
      /\ exists (r : row) c1 c2,
           In r scores_rows /\ Dict.get "SID" r = Some c1
           /\ Dict.get "Submission ID" r = Some c2
           /\ sid = strip (or_empty c1) /\ sub = strip (or_empty c2))
  /\ (forall (r : row) s,
        Dict.get "Student ID" r = Some (Some s) -> strip s = "" ->
        skipped lookup r = true).
Proof.
  intros Hb.
  assert (forall sid sub,
      In (sid, sub) lookup ->
      sid <> "" /\ sub <> "" /\ strip sid = sid /\ strip sub = sub
      /\ exists (r : row) c1 c2,
           In r scores_rows /\ Dict.get "SID" r = Some c1
           /\ Dict.get "Submission ID" r = Some c2
           /\ sid = strip (or_empty c1) /\ sub = strip (or_empty c2)) as Hall.
  { refine (build_entries scores_rows scores_rows (fun r H => H) [] lookup Hb
              _ _ _).
    - intros r c1 c2 Hin H1 H2 Hn1 Hn2.
      repeat split; try assumption; try apply strip_idem.
      exists r, c1, c2. repeat split; assumption.
    - intros k v []. }
  split; [exact Hall|].
  intros r s Hs He. unfold skipped, Dict.mem. rewrite Hs, He.
  destruct (Dict.get "" lookup) as [sub|] eqn:Hg; [|reflexivity].
  apply get_Some_In in Hg. now destruct (Hall "" sub Hg) as [Hne _].
Qed.

(** X17. The rows of the scores file in which the SID or the submission
    ID is blank (empty, white space or [None]) have no effect: without them
    the lookup, or the exception, is the same. *)
Theorem blank_scores_rows_have_no_effect
    (rows : list row) (d : Dict.t string string) :
  build_sid_to_submission (filter (fun r => negb (blank_scores_row r)) rows) d
  = build_sid_to_submission rows d.
Proof.
  revert d. induction rows as [|r rest IH]; intros d; [reflexivity|].
  cbn [filter]. unfold blank_scores_row at 1.
  cbn [build_sid_to_submission]. unfold getitem.
  destruct (Dict.get "SID" r) as [c1|] eqn:H1;
    [destruct (Dict.get "Submission ID" r) as [c2|] eqn:H2|].
  - cbn [rbind].
    destruct (truthy (strip (or_empty c1)) && truthy (strip (or_empty c2)))
      eqn:Ht; cbn [negb].
    + cbn [build_sid_to_submission]. unfold getitem. rewrite H1, H2.
      cbn [rbind]. rewrite Ht. apply IH.
    + apply IH.
  - cbn [negb build_sid_to_submission]. unfold getitem. rewrite H1, H2.
    reflexivity.
  - cbn [negb build_sid_to_submission]. unfold getitem. now rewrite H1.
Qed.


(** ** The exceptions of main *)











(** ** The files of a run *)

Lemma insert_sorted x l :
  StronglySorted Z.lt l -> ~ In x l -> StronglySorted Z.lt (insert x l).
Proof.
  intros Hs. induction Hs as [|y l Hs IH Hy]; intros Hx; simpl.
  - repeat constructor.
  - destruct (Z.leb_spec x y) as [Hle|Hgt].
    + assert (x <> y) as Hne by (intros ->; apply Hx; now left).
      assert (x < y) as Hlt by lia.
      constructor; [now constructor|].
      constructor; [exact Hlt|].
      apply Forall_forall. intros z Hz.
      apply (proj1 (Forall_forall _ _) Hy) in Hz. lia.
    + constructor; [apply IH; simpl in Hx; tauto|].
      apply Forall_forall. intros z Hz. apply insert_In in Hz as [->|Hz].
      * exact Hgt.
      * now apply (proj1 (Forall_forall _ _) Hy).
Qed.

Lemma sorted_strongly l : NoDup l -> StronglySorted Z.lt (sorted l).
Proof.
  induction 1 as [|x l Hx Hnd IH]; simpl; [constructor|].
  apply insert_sorted; [exact IH|]. now rewrite sorted_In.
Qed.

Section Files.
Variable e : env.
Variable folder_name : string.
Variable questions : Dict.t Z (list string).
Variable lookup : Dict.t string string.
Variable rows : list row.

Lemma emit_question_disk q w r w' :
  emit_question e folder_name questions lookup rows q w = (r, w') ->
  disk w' = disk w
  \/ exists f, disk w' = disk w ++ [f] /\ js_q_num f = q
               /\ written_by folder_name questions lookup rows f.
Proof.
  unfold emit_question, ibind, lift, getitem.
  destruct (Dict.get q questions) as [cols|] eqn:Hq;
    [|intros [= _ <-]; now left].
  destruct (question_grades lookup cols rows) as [g|] eqn:Hg;
    [|intros [= _ <-]; now left].
  destruct (any_positive g) eqn:Hp; cbn [negb].
  - destruct (open_write_ok e folder_name q); [|intros [= _ <-]; now left].
    unfold write_file, print. intros [= _ <-]. right. simpl.
    eexists. split; [reflexivity|]. split; [reflexivity|].
    exists cols. simpl. repeat split; assumption.
  - unfold print. intros [= _ <-]. now left.
Qed.

Lemma for_each_emit_disk ql :
  StronglySorted Z.lt ql ->
  forall w r w',
    for_each (emit_question e folder_name questions lookup rows) ql w
    = (r, w') ->
    exists new,
      disk w' = disk w ++ new
      /\ StronglySorted Z.lt (map js_q_num new)
      /\ Forall (fun f => In (js_q_num f) ql
                          /\ written_by folder_name questions lookup rows f)
                new.
Proof.
  induction 1 as [|q ql Hs IH Hq]; intros w r w'; simpl.
  - intros [= _ <-]. exists []. rewrite app_nil_r.
    repeat split; constructor.
  - unfold ibind.
    destruct (emit_question e folder_name questions lookup rows q w)
      as [[[]|x] w1] eqn:Hb.
    + intros Hrest. destruct (IH w1 r w' Hrest) as (new & Hd & Hsn & Hall).
      assert (Forall (fun f => In (js_q_num f) (q :: ql)
                /\ written_by folder_name questions lookup rows f) new)
        as Hall'.
      { eapply Forall_impl; [|exact Hall]. simpl. intros f [H1 H2]. tauto. }
      destruct (emit_question_disk q w _ w1 Hb) as [Hw|(f & Hw & Hf & Hwb)].
      * exists new. rewrite Hd, Hw. repeat split; assumption.
      * exists (f :: new). rewrite Hd, Hw, <- app_assoc. simpl.
        split; [reflexivity|]. split.
        -- constructor; [exact Hsn|]. rewrite Hf.
           apply Forall_forall. intros z Hz.
           apply in_map_iff in Hz as (f' & <- & Hf').
           apply (proj1 (Forall_forall _ _) Hall) in Hf' as [Hin _].
           now apply (proj1 (Forall_forall _ _) Hq).
        -- constructor; [|exact Hall']. split; [left; now rewrite Hf|exact Hwb].
    + intros [= <- <-].
      destruct (emit_question_disk q w _ w1 Hb) as [Hw|(f & Hw & Hf & Hwb)].
      * exists []. rewrite Hw, app_nil_r. repeat split; constructor.
      * exists [f]. split; [exact Hw|]. split; [repeat constructor|].
        constructor; [|constructor]. split; [left; now rewrite Hf|exact Hwb].
Qed.
End Files.

(** Every run of [main] either writes no file or reaches the loop over the
    questions with an empty disk. *)
Lemma main_any_inv e prog args r w :
  main e prog args empty_world = (r, w) ->
  disk w = []
  \/ exists a1 a2 reply scores lookup metadata headers questions w0,
       args = [a1; a2]
       /\ stdin_line e = Some reply
       /\ open_read e a1 = Some scores
       /\ build_sid_to_submission (csv_rows scores) [] = Ok lookup
       /\ open_read e a2 = Some metadata
       /\ fieldnames metadata = Some headers
       /\ parse_questions headers = Ok questions
       /\ disk w0 = []
       /\ for_each (emit_question e (strip reply) questions lookup
                                  (csv_rows metadata))
                   (sorted (Dict.keys questions)) w0
          = (r, w).
Proof.
  unfold main.
  destruct args as [|a1 [|a2 [|a3 args]]];
    cbn [List.length Nat.eqb negb nth];
    unfold ibind, print, lift, iret, raise; cbn [stdout disk empty_world app];
    try (intros [= _ <-]; now left).
  destruct (stdin_line e) as [reply|] eqn:Hin; [|intros [= _ <-]; now left].
  destruct (makedirs_ok e (strip reply)); [|intros [= _ <-]; now left].
  destruct (open_read e a1) as [scores|] eqn:Hs; [|intros [= _ <-]; now left].
  destruct (build_sid_to_submission (csv_rows scores) []) as [lookup|] eqn:Hb;
    [|intros [= _ <-]; now left].
  destruct (open_read e a2) as [metadata|] eqn:Hm;
    [|intros [= _ <-]; now left].
  destruct (fieldnames metadata) as [headers|] eqn:Hh;
    [|intros [= _ <-]; now left].
  destruct (parse_questions headers) as [questions|] eqn:Hp;
    [|intros [= _ <-]; now left].
  intros Hrun. right.
  exists a1, a2, reply, scores, lookup, metadata, headers, questions.
  eexists. repeat split; try eassumption. reflexivity.
Qed.

Lemma parse_questions_NoDup headers questions :
  parse_questions headers = Ok questions -> NoDup (Dict.keys questions).
Proof. intros Hp. apply (parse_questions_spec headers questions Hp). Qed.

(** What a run gives for its disk: the files come from the loop over the
    questions, in increasing order of question number. *)
Lemma run_disk e prog args r w :
  main e prog args empty_world = (r, w) ->
  disk w = []
  \/ exists a1 a2 reply scores lookup metadata headers questions,
       args = [a1; a2]
       /\ stdin_line e = Some reply
       /\ open_read e a1 = Some scores
       /\ build_sid_to_submission (csv_rows scores) [] = Ok lookup
       /\ open_read e a2 = Some metadata
       /\ fieldnames metadata = Some headers
       /\ parse_questions headers = Ok questions
       /\ StronglySorted Z.lt (map js_q_num (disk w))
       /\ Forall (written_by (strip reply) questions lookup
                             (csv_rows metadata)) (disk w).
Proof.
  intros Hmain.
  destruct (main_any_inv e prog args r w Hmain)
    as [Hd|(a1 & a2 & reply & scores & lookup & metadata & headers
            & questions & w0 & Ha & Hin & Hs & Hb & Hm & Hh & Hp & Hw0 & Hloop)];
    [now left|right].
  exists a1, a2, reply, scores, lookup, metadata, headers, questions.
  repeat (split; [assumption|]).
  destruct (for_each_emit_disk e (strip reply) questions lookup
              (csv_rows metadata) _
              (sorted_strongly _ (parse_questions_NoDup _ _ Hp))
              w0 r w Hloop) as (new & Hd & Hsn & Hall).
  rewrite Hw0 in Hd. simpl in Hd. rewrite Hd. split; [exact Hsn|].
  eapply Forall_impl; [|exact Hall]. simpl. tauto.
Qed.

Lemma run_snd e prog args :
  snd (run e prog args) = snd (main e prog args empty_world).
Proof. unfold run. now destruct (main e prog args empty_world). Qed.

Lemma main_pair e prog args :
  main e prog args empty_world
  = (fst (main e prog args empty_world), snd (run e prog args)).
Proof. rewrite run_snd. now destruct (main e prog args empty_world). Qed.




Lemma run_disk_sorted e prog args :
  StronglySorted Z.lt (map js_q_num (disk (snd (run e prog args)))).
Proof.
  destruct (run_disk e prog args _ _ (main_pair e prog args))
    as [Hd|(a1 & a2 & reply & scores & lookup & metadata & headers
            & questions & _ & _ & _ & _ & _ & _ & _ & Hs & _)].
  - rewrite Hd. constructor.
  - exact Hs.
Qed.

Lemma run_disk_folder e prog args f1 f2 :
  In f1 (disk (snd (run e prog args))) ->
  In f2 (disk (snd (run e prog args))) ->
  js_folder f1 = js_folder f2.
Proof.
  intros H1 H2.
  destruct (run_disk e prog args _ _ (main_pair e prog args))
    as [Hd|(a1 & a2 & reply & scores & lookup & metadata & headers
            & questions & _ & _ & _ & _ & _ & _ & _ & _ & Hall)].
  - rewrite Hd in H1. destruct H1.
  - apply (proj1 (Forall_forall _ _) Hall) in H1, H2.
    destruct H1 as (_ & _ & _ & _ & _ & ->).
    destruct H2 as (_ & _ & _ & _ & _ & ->). reflexivity.
Qed.

(** X12. Whatever the outcome of a run, the files on the disk are in
    strictly increasing order of question number: the questions are
    handled in sorted order and no question gets two files. *)
Theorem files_in_increasing_order
    (e : env) (prog : string) (args : list string) :
  StronglySorted Z.lt (map js_q_num (disk (snd (run e prog args))))
  /\ NoDup (map js_q_num (disk (snd (run e prog args)))).
Proof.
  pose proof (run_disk_sorted e prog args) as Hs. split; [exact Hs|].
  induction Hs as [|q l Hs IH Hq]; constructor; [|exact IH].
  intros Hin. apply (proj1 (Forall_forall _ _) Hq) in Hin. lia.
Qed.

(** ** File names *)

Lemma length_append s t :
  String.length (s ++ t)%string = (String.length s + String.length t)%nat.
Proof. induction s as [|c s IH]; simpl; [reflexivity|now rewrite IH]. Qed.

Lemma append_cancel_r s : forall a b, (a ++ s = b ++ s)%string -> a = b.
Proof.
  induction a as [|c a IH]; intros [|d b]; simpl; intros Heq.
  - reflexivity.
  - apply (f_equal String.length) in Heq. simpl in Heq.
    rewrite length_append in Heq. lia.
  - apply (f_equal String.length) in Heq. simpl in Heq.
    rewrite length_append in Heq. lia.
  - injection Heq as -> Heq. now rewrite (IH b Heq).
Qed.

Lemma str_inj n m : str n = str m -> n = m.
Proof.
  unfold str. intros Heq. apply DecimalZ.to_int_inj.
  apply (f_equal NilEmpty.int_of_string) in Heq.
  rewrite !NilEmpty.isi in Heq. now injection Heq.
Qed.

Lemma js_name_inj n m : js_name n = js_name m -> n = m.
Proof.
  unfold js_name. simpl. intros [= Heq].
  now apply str_inj, (append_cancel_r ".js").
Qed.

(** X13. Distinct question numbers have distinct file names, so the files
    written in one run, which share their folder, all have different
    names: no file of a run is overwritten by a later one. *)
Theorem file_names_distinct
    (e : env) (prog : string) (args : list string) :
  (forall n m, js_name n = js_name m -> n = m)
  /\ NoDup (map (fun f => js_name (js_q_num f))
                (disk (snd (run e prog args))))
  /\ (forall f1 f2, In f1 (disk (snd (run e prog args))) ->
                    In f2 (disk (snd (run e prog args))) ->
                    js_folder f1 = js_folder f2).
Proof.
  split; [exact js_name_inj|]. split; [|apply run_disk_folder].
  pose proof (run_disk_sorted e prog args) as Hs.
  induction (disk (snd (run e prog args))) as [|f l IH]; simpl;
    [constructor|].
  simpl in Hs. inversion Hs as [|? ? Hs' Hf]; subst.
  constructor; [|apply IH, Hs'].
  intros Hin. apply in_map_iff in Hin as (f' & Hname & Hf').
  apply js_name_inj in Hname.
  assert (In (js_q_num f') (map js_q_num l)) as Hq by now apply in_map.
  apply (proj1 (Forall_forall _ _) Hf) in Hq. lia.
Qed.

Example js_name_examples :
  map js_name [0; 1; 12; 305] = ["q0.js"; "q1.js"; "q12.js"; "q305.js"].
Proof. reflexivity. Qed.

(** ** Questions without a grade, and what is printed *)

Lemma all_zero_not_positive (g : Dict.t string (list Z)) :
  (forall k v x, In (k, v) g -> In x v -> x = 0) -> any_positive g = false.
Proof.
  intros Hz. unfold any_positive.
  destruct (existsb _ (Dict.values g)) eqn:He; [|reflexivity].
  apply existsb_exists in He as (arr & Hin & Hex).
  apply existsb_exists in Hex as (x & Hx & Hpos).
  apply in_map_iff in Hin as ([k v] & Heq & Hin). simpl in Heq. subst v.
  rewrite (Hz k arr x Hin Hx) in Hpos. discriminate.
Qed.

(** X14. When no metadata row holds a valid grade for a student of the
    lookup (no rows, no known student, or only blank and invalid cells),
    the question is skipped: one line is printed and no file is opened,
    even where opening it would fail. *)
Theorem question_without_grades_is_skipped
    (e : env) (folder_name : string) (questions : Dict.t Z (list string))
    (lookup : Dict.t string string) (rows : list row) (q : Z)
    (cols : list string) (grades : Dict.t string (list Z)) (w : world) :
  Dict.get q questions = Some cols ->
  question_grades lookup cols rows = Ok grades ->
  (forall r sub, In r rows -> leaves_alone lookup cols sub r) ->
  (forall sub, In sub (Dict.keys grades) ->
               Dict.get sub grades = Some (repeat 0 (List.length cols)))
  /\ emit_question e folder_name questions lookup rows q w
     = (Ok tt, {| stdout := stdout w ++ [Skipped q]; disk := disk w |}).
Proof.
  intros Hq Hg Hrows.
  assert (forall sub, In sub (Dict.keys grades) ->
            Dict.get sub grades = Some (repeat 0 (List.length cols))) as Hz.
  { intros sub Hin.
    rewrite (grade_rows_leave_alone lookup cols sub rows _ grades
               (fun r Hr => Hrows r sub Hr) Hg).
    apply default_grades_get.
    rewrite (question_grades_keys lookup cols rows grades Hg) in Hin.
    now apply default_grades_keys in Hin. }
  split; [exact Hz|].
  unfold emit_question, ibind, lift, getitem. rewrite Hq, Hg.
  rewrite all_zero_not_positive; [reflexivity|].
  intros k v x Hin Hx.
  assert (In k (Dict.keys grades)) as Hk
    by (change k with (fst (k, v)); now apply in_map).
  pose proof (In_get_NoDup k v grades
                (question_grades_NoDup lookup cols rows grades Hg) Hin) as Hv.
  rewrite (Hz k Hk) in Hv. injection Hv as <-.
  now apply repeat_spec in Hx.
Qed.

Lemma for_each_emit_stdout e folder questions lookup rows ql :
  forall w w',
    for_each (emit_question e folder questions lookup rows) ql w
    = (Ok tt, w') ->
    exists lines,
      stdout w' = stdout w ++ lines
      /\ Forall2 (line_of questions lookup rows) ql lines.
Proof.
  induction ql as [|q ql IH]; intros w w'; simpl.
  - intros [= <-]. exists []. rewrite app_nil_r. split; constructor.
  - unfold ibind at 1.
    destruct (emit_question e folder questions lookup rows q w)
      as [[[]|x] w1] eqn:Hb; [|discriminate].
    intros Hrest. destruct (IH w1 w' Hrest) as (lines & Hs & Hall).
    assert (exists l, stdout w1 = stdout w ++ [l]
                      /\ line_of questions lookup rows q l) as (l & Hl & Hq).
    { revert Hb. unfold emit_question, ibind, lift, getitem, line_of.
      destruct (Dict.get q questions) as [cols|] eqn:Hq; [|discriminate].
      destruct (question_grades lookup cols rows) as [g|] eqn:Hg;
        [|discriminate].
      destruct (any_positive g) eqn:Hp; cbn [negb].
      - destruct (open_write_ok e folder q); [|discriminate].
        unfold write_file, print. intros [= <-]. simpl.
        eexists. split; [reflexivity|]. exists cols, g.
        split; [reflexivity|]. split; [exact Hg|]. right. now split.
      - unfold print. intros [= <-]. simpl.
        eexists. split; [reflexivity|]. exists cols, g.
        split; [reflexivity|]. split; [exact Hg|]. left. now split. }
    exists (l :: lines). rewrite Hs, Hl, <- app_assoc. simpl.
    split; [reflexivity|]. now constructor.
Qed.

(** X15. A run of [main] that returns prints the prompt, the line of the
    questions found, and then one line per question in increasing order of
    question number: "skipped" when no grade of its mapping is above zero,
    else the file line with the number of entries and of parts. *)
Theorem stdout_of_a_returning_run
    (e : env) (prog : string) (args : list string) (w : world) :
  main e prog args empty_world = (Ok tt, w) ->
  exists a1 a2 scores metadata headers lookup questions lines,
    args = [a1; a2]
    /\ open_read e a1 = Some scores
    /\ open_read e a2 = Some metadata
    /\ fieldnames metadata = Some headers
    /\ build_sid_to_submission (csv_rows scores) [] = Ok lookup
    /\ parse_questions headers = Ok questions
    /\ stdout w
       = Prompt
         :: Found (List.length questions) (sorted (Dict.keys questions))
         :: lines
    /\ StronglySorted Z.lt (sorted (Dict.keys questions))
    /\ Forall2 (line_of questions lookup (csv_rows metadata))
               (sorted (Dict.keys questions)) lines.
Proof.
  intros Hmain.
  destruct (main_Ok_inv e prog args w Hmain)
    as (a1 & a2 & reply & scores & lookup & metadata & headers & questions
        & Hargs & _ & _ & Hs & Hb & Hm & Hh & Hp & Hloop).
  destruct (for_each_emit_stdout _ _ _ _ _ _ _ _ Hloop)
    as (lines & Hout & Hall).
  exists a1, a2, scores, metadata, headers, lookup, questions, lines.
  simpl in Hout. do 7 (split; [assumption|]).
  split; [|exact Hall].
  apply sorted_strongly. eapply parse_questions_NoDup, Hp.
Qed.

(** ** Question numbers *)

Lemma digit_value_nonneg c : is_digit c = true -> 0 <= digit_value c.
Proof.
  unfold is_digit, digit_value. intros H.
  apply andb_true_iff in H as [H _]. apply N.leb_le in H. lia.
Qed.

Lemma int_digits_nonneg s :
  forall b acc v, int_digits b acc s = Some v -> 0 <= acc -> 0 <= v.
Proof.
  induction s as [|c s IH]; intros b acc v; simpl.
  - destruct b; [discriminate|]. now intros [= <-].
  - destruct (is_digit c) eqn:Hc.
    + intros Hi Ha. apply (IH _ _ _ Hi).
      pose proof (digit_value_nonneg c Hc). lia.
    + destruct (Ascii.eqb c "_"); [|discriminate].
      destruct b; [discriminate|]. apply IH.
Qed.

Lemma header_question_nonneg h n : header_question h = Some n -> 0 <= n.
Proof.
  unfold header_question.
  destruct (pattern_match h) as [g1|] eqn:Hm; [|discriminate].
  destruct (match_header_shape h g1 Hm) as [[Hne Hd] _].
  destruct g1 as [|c g]; [contradiction|].
  simpl in Hd. apply andb_true_iff in Hd as [Hc _].
  rewrite (int_of_digit_first c g Hc). intros Hi.
  apply int_unsigned_Some in Hi as [Hi _].
  now apply (int_digits_nonneg _ _ _ _ Hi).
Qed.

(** X16. Every key of the dictionary of [parse_questions] is the number of
    a header of the list, is not negative, and has a non-empty group; a
    list without a matching header gives the empty dictionary. *)
Theorem question_numbers
    (headers : list string) (questions : Dict.t Z (list string)) :
  parse_questions headers = Ok questions ->
  (forall N cols,
      Dict.get N questions = Some cols ->
      0 <= N /\ cols <> []
      /\ exists h, In h headers /\ header_question h = Some N)
  /\ ((forall h, In h headers -> pattern_match h = None) -> questions = []).
Proof.
  intros Hp.
  destruct (parse_questions_spec headers questions Hp) as [Hnd Hget].
  assert (forall N cols,
      Dict.get N questions = Some cols ->
      0 <= N /\ cols <> []
      /\ exists h, In h headers /\ header_question h = Some N) as Hkeys.
  { intros N cols Hg. rewrite Hget in Hg.
    destruct (matching N headers) as [|h0 rest] eqn:Hmt; [discriminate|].
    injection Hg as <-.
    assert (In h0 (matching N headers)) as Hin by (rewrite Hmt; now left).
    apply filter_In in Hin as [Hin Hq]. unfold has_question in Hq.
    destruct (header_question h0) as [n|] eqn:Hn; [|discriminate].
    apply Z.eqb_eq in Hq. subst n.
    split; [eapply header_question_nonneg, Hn|].
    split; [discriminate|eauto]. }
  split; [exact Hkeys|].
  intros Hnone. destruct questions as [|[N cols] rest]; [reflexivity|].
  assert (Dict.get N ((N, cols) :: rest) = Some cols) as Hg
    by (simpl; now rewrite Z.eqb_refl).
  destruct (Hkeys N cols Hg) as (_ & _ & h & Hin & Hq).
  unfold header_question in Hq. now rewrite (Hnone h Hin) in Hq.
Qed.

(** ** Instances of the further properties *)

Example two_questions_run :
  run two_q_env "generate.py" ["scores.csv"; "meta.csv"]
  = (0, {| stdout := [Prompt; Found 2 [1; 2]; Wrote 1 1 2; Wrote 2 1 1];
           disk := [{| js_folder := "out"; js_q_num := 1;
                       js_grades := [("sub1", [1; 0])]; js_num_parts := 2 |};
                    {| js_folder := "out"; js_q_num := 2;
                       js_grades := [("sub1", [4])]; js_num_parts := 1 |}] |}).
Proof. reflexivity. Qed.

Lemma leading_zero_same_question_witness :
  pattern_match "Question 1.2 Response" = Some "1"
  /\ (count_digits "1" < int_max_str_digits)%N
  /\ exists rest N,
       "Question 1.2 Response" = ("Question " ++ "1" ++ rest)%string
       /\ pattern_match ("Question " ++ String "0" "1" ++ rest)%string
          = Some (String "0" "1")
       /\ header_question "Question 1.2 Response" = Some N
       /\ header_question ("Question " ++ String "0" "1" ++ rest)%string
          = Some N.
Proof.
  split; [reflexivity|]. split; [reflexivity|].
  exact (leading_zero_same_question "Question 1.2 Response" "1" eq_refl
           eq_refl).
Defined.

Lemma compute_grades_vector_witness :
  compute_grades q2_row q2_cols = Ok (Some [0; 0; 3])
  /\ [0; 0; 3] <> []
  /\ List.length [0; 0; 3] = List.length q2_cols
  /\ Forall (fun g => 0 <= g <= 4 /\ 0 <= 4 - g <= 4) [0; 0; 3].
Proof.
  split; [reflexivity|].
  destruct (compute_grades_vector q2_row q2_cols [0; 0; 3] eq_refl)
    as (H1 & H2 & H3 & _).
  repeat split; assumption.
Defined.

Lemma compute_grades_KeyError_witness :
  Dict.get "Question 9 Response" (q1_row "3") = None
  /\ compute_grades (q1_row "3") ["Question 9 Response"] = Raise KeyError.
Proof.
  split; [reflexivity|].
  apply (proj2 (proj1 (compute_grades_KeyError (q1_row "3")
                         ["Question 9 Response"]))).
  exists "Question 9 Response". split; [now left|reflexivity].
Defined.

Lemma ungraded_submission_keeps_zeros_witness :
  question_grades two_lookup q1_cols [q1_row "3"]
  = Ok [("sub1", [3]); ("sub9", [0])]
  /\ In "sub9" (Dict.values two_lookup)
  /\ Dict.get "sub9" [("sub1", [3]); ("sub9", [0])]
     = Some (repeat 0 (List.length q1_cols)).
Proof.
  split; [reflexivity|]. split; [right; now left|].
  apply (ungraded_submission_keeps_zeros two_lookup q1_cols [q1_row "3"]
           [("sub1", [3]); ("sub9", [0])] "sub9" eq_refl).
  - right. now left.
  - intros r [<-|[]] s [= <-]. discriminate.
Defined.

Lemma grade_mapping_order_witness :
  question_grades shared_lookup q1_cols shared_rows = Ok [("sub1", [2])]
  /\ Dict.keys [("sub1", [2])] = uniq (Dict.values shared_lookup)
  /\ List.length [("sub1", [2])]
     = List.length (uniq (Dict.values shared_lookup)).
Proof.
  split; [reflexivity|].
  exact (grade_mapping_order shared_lookup q1_cols shared_rows
           [("sub1", [2])] eq_refl).
Defined.

Lemma lookup_entries_witness :
  build_sid_to_submission shared_scores [] = Ok shared_lookup
  /\ "s1" <> "" /\ "sub1" <> ""
  /\ strip "s1" = "s1" /\ strip "sub1" = "sub1"
  /\ skipped shared_lookup (row_of "   " "3") = true.
Proof.
  split; [reflexivity|].
  destruct (lookup_entries shared_scores shared_lookup eq_refl)
    as [Hentries Hblank].
  destruct (Hentries "s1" "sub1" (or_introl eq_refl))
    as (H1 & H2 & H3 & H4 & _).
  repeat (split; [assumption|]).
  exact (Hblank (row_of "   " "3") "   " eq_refl eq_refl).
Defined.




Lemma question_without_grades_is_skipped_witness :
  question_grades s1_lookup q1_cols [q1_row "5"; q1_row ""]
  = Ok [("sub1", [0])]
  /\ emit_question read_only_env "out" [(1, q1_cols)] s1_lookup
                   [q1_row "5"; q1_row ""] 1 empty_world
     = (Ok tt, {| stdout := [Skipped 1]; disk := [] |}).
Proof.
  split; [reflexivity|].
  apply (question_without_grades_is_skipped read_only_env "out"
           [(1, q1_cols)] s1_lookup [q1_row "5"; q1_row ""] 1 q1_cols
           [("sub1", [0])] empty_world eq_refl eq_refl).
  intros r sub [<-|[<-|[]]] s _ _; reflexivity.
Defined.

Lemma stdout_of_a_returning_run_witness :
  main two_q_env "generate.py" ["scores.csv"; "meta.csv"] empty_world
  = (Ok tt, snd (run two_q_env "generate.py" ["scores.csv"; "meta.csv"]))
  /\ exists (questions : Dict.t Z (list string)) lines,
       stdout (snd (run two_q_env "generate.py" ["scores.csv"; "meta.csv"]))
       = Prompt
         :: Found (List.length questions) (sorted (Dict.keys questions))
         :: lines
       /\ StronglySorted Z.lt (sorted (Dict.keys questions))
       /\ List.length lines = List.length (sorted (Dict.keys questions)).
Proof.
  split; [reflexivity|].
  destruct (stdout_of_a_returning_run two_q_env "generate.py"
              ["scores.csv"; "meta.csv"] _ eq_refl)
    as (a1 & a2 & scores & metadata & headers & lookup & questions & lines
        & _ & _ & _ & _ & _ & _ & Hout & Hs & Hall).
  exists questions, lines. split; [exact Hout|]. split; [exact Hs|].
  symmetry. exact (Forall2_length Hall).
Defined.

Lemma question_numbers_witness :
  parse_questions ex_headers
  = Ok [(1, ["Question 1.1 Response"; "Question 1.2 Response"])]
  /\ 0 <= 1
  /\ exists h, In h ex_headers /\ header_question h = Some 1.
Proof.
  split; [reflexivity|].
  destruct (question_numbers ex_headers _ eq_refl) as [Hkeys _].
  destruct (Hkeys 1 ["Question 1.1 Response"; "Question 1.2 Response"] eq_refl)
    as (H1 & _ & H3).
  split; assumption.
Defined.

(** ** The exit status *)




(** A run that is not [well_formed_run] can still return: here no metadata
    row has a student ID, and the header has no question. *)
Example no_question_run :
  run no_question_env "generate.py" ["scores.csv"; "meta.csv"]
  = (0, {| stdout := [Prompt; Found 0 []]; disk := [] |}).
Proof. reflexivity. Qed.

(** ** Instances for the header list and the exit status *)

Lemma ex_headers_within_limit :
  forall h g1, In h ex_headers -> pattern_match h = Some g1 ->
               (count_digits g1 <= int_max_str_digits)%N.
Proof.
  intros h g1 [<-|[<-|[<-|[]]]]; vm_compute; intros [= <-]; discriminate.
Defined.

Lemma parse_questions_groups_witness :
  (forall h g1, In h ex_headers -> header_shape h g1 -> within_limit g1)
  /\ exists questions,
       parse_questions ex_headers = Ok questions
       /\ Dict.get 1 questions
          = Some ["Question 1.1 Response"; "Question 1.2 Response"]
       /\ Dict.get 2 questions = None.
Proof.
  assert (forall h g1, In h ex_headers -> header_shape h g1 -> within_limit g1)
    as Hlim.
  { intros h g1 Hin Hs.
    exact (ex_headers_within_limit h g1 Hin (header_shape_match h g1 Hs)). }
  split; [exact Hlim|].
  destruct (proj1 (parse_questions_groups ex_headers) Hlim)
    as (questions & Hp & _ & Hget & _).
  exists questions. split; [exact Hp|]. split.
  - rewrite (Hget 1 (has_question 1)); [reflexivity|].
    intros h Hin. apply has_question_spec. intros g1. now apply Hlim.
  - rewrite (Hget 2 (has_question 2)); [reflexivity|].
    intros h Hin. apply has_question_spec. intros g1. now apply Hlim.
Defined.


